(** * acrcloud.py: request signing and request shaping

    A shallow embedding of [acrcloud.py], a client of ACRCloud's console and
    monitoring web API, and the properties of its request signing and request
    construction.

    Python values are modelled as follows.
    - [str] is a sequence of Unicode code points ([pystr], a list of [N]);
      lone surrogates (U+D800..U+DFFF) are legal members of a Python [str]
      and are kept, since [str.encode()] raises on them.
    - [bytes] is [list byte].
    - [int] is [Z].
    - a [dict] literal is an association list in insertion order.
    - [time.time()] and the [requests] calls are the two effects of the
      program; they are events of the program monad [Prog], answered by a
      [World].  [str(time.time())] is one event that yields the timestamp
      string (the float itself is not modelled).
    - the interpreter is CPython 3.11 or later with its default settings:
      the decimal text of an [int] of more than 4300 digits raises
      [ValueError], and [json.dumps] raises [RecursionError] when the value
      nests deeper than the recursion depth the interpreter has left, which
      the [World] supplies.

    The boundary of the model is the call of [requests]: a request is the
    tuple of arguments the method passes (method, URL, [data], [headers],
    [verify]); what the transport then does with them is the world's.
    The standard-library functions the module calls ([str.encode],
    [hashlib.sha1], [hmac.new], [base64.b64encode], [json.dumps],
    [Response.text]) are modelled from their standards and checked on the
    standards' test vectors. *)

From Stdlib Require Import String Ascii Strings.Byte DecimalString.
From Stdlib Require Import List ZArith NArith Lia Bool.
From Stdlib Require Import DecimalPos DecimalZ.
Import ListNotations.

Set Implicit Arguments.
Set Warnings "-register-all".

(** ** Python strings and bytes *)

Definition pystr := list N.
Definition bytes := list byte.

(** A source-code literal made of ASCII characters. *)
Definition lit (s : string) : pystr :=
  map N_of_ascii (list_ascii_of_string s).

(** The literals that cannot be written inside a Rocq string. *)
Definition nl : pystr := [10%N].   (* the newline character *)
Definition dq : pystr := [34%N].   (* the double-quote character *)

(** ASCII bytes literal, for [b'...'] constants. *)
Definition blit (s : string) : bytes := list_byte_of_string s.

Definition byte_of_N (n : N) : byte :=
  match Byte.of_N (n mod 256) with
  | Some b => b
  | None => x00
  end.

Definition byte_of_Z (z : Z) : byte := byte_of_N (Z.to_N (z mod 256)).

(** [sep.join(parts)] *)
Fixpoint join (sep : pystr) (parts : list pystr) : pystr :=
  match parts with
  | [] => []
  | [p] => p
  | p :: rest => p ++ sep ++ join sep rest
  end.

(** ** Exceptions that can cross the methods of the module *)

Inductive exn : Type :=
| UnicodeEncodeError                 (* raised by [str.encode()] *)
| ValueError                         (* an [int] too long to print *)
| RecursionError                     (* [json.dumps] nested too deep *)
| RequestException (what : pystr).   (* raised by the [requests] transport *)

(** The decimal numeral of an [int], with its sign. *)
Definition decimal (z : Z) : pystr :=
  lit (NilZero.string_of_int (Z.to_int z)).

(** [sys.int_info.default_max_str_digits] *)
Definition int_max_str_digits : Z := 4300.

(** [str(n)] and ['{}'.format(n)] for an [int]: the decimal numeral, or
    [ValueError] when it has more than [int_max_str_digits] digits. *)
Definition str_of_int (z : Z) : exn + pystr :=
  if (Z.abs z <? 10 ^ int_max_str_digits)%Z then inr (decimal z)
  else inl ValueError.

(** ** [str.encode()]: UTF-8, strict error handler *)

Definition is_surrogate (c : N) : bool :=
  ((0xD800 <=? c) && (c <=? 0xDFFF))%N.

Definition utf8_char (c : N) : option bytes :=
  (if c <? 0x80 then Some [byte_of_N c]
   else if c <? 0x800 then
     Some [byte_of_N (0xC0 + c / 64); byte_of_N (0x80 + c mod 64)]
   else if is_surrogate c then None
   else if c <? 0x10000 then
     Some [byte_of_N (0xE0 + c / 4096);
           byte_of_N (0x80 + (c / 64) mod 64);
           byte_of_N (0x80 + c mod 64)]
   else if c <? 0x110000 then
     Some [byte_of_N (0xF0 + c / 262144);
           byte_of_N (0x80 + (c / 4096) mod 64);
           byte_of_N (0x80 + (c / 64) mod 64);
           byte_of_N (0x80 + c mod 64)]
   else None)%N.

Fixpoint encode (s : pystr) : option bytes :=
  match s with
  | [] => Some []
  | c :: rest =>
    match utf8_char c, encode rest with
    | Some b, Some bs => Some (b ++ bs)
    | _, _ => None
    end
  end.

(** A string that [encode] accepts: code points in range, no surrogate. *)
Definition encodable (s : pystr) : bool :=
  forallb (fun c => (c <? 0x110000)%N && negb (is_surrogate c)) s.

(** ** [hashlib.sha1] (FIPS 180-4, section 6.1) *)

Module SHA1.

Local Open Scope Z_scope.

Definition w32 (x : Z) : Z := x mod 2 ^ 32.
Definition add32 (x y : Z) : Z := w32 (x + y).
Definition rotl (n x : Z) : Z :=
  w32 (Z.lor (Z.shiftl x n) (Z.shiftr x (32 - n))).
Definition not32 (x : Z) : Z := Z.lxor x 0xFFFFFFFF.

Definition block_size : nat := 64.

(** Big-endian bytes of a [n]-byte integer. *)
Fixpoint be_bytes (n : nat) (x : Z) : bytes :=
  match n with
  | O => []
  | S k => be_bytes k (Z.shiftr x 8) ++ [byte_of_Z x]
  end.

Definition be_word (bs : bytes) : Z :=
  fold_left (fun acc b => acc * 256 + Z.of_N (Byte.to_N b)) bs 0.

(** Padding: a [0x80] byte, zeros up to 56 modulo 64, the bit length. *)
Definition pad (msg : bytes) : bytes :=
  let l := Z.of_nat (length msg) in
  let k := Z.to_nat ((55 - l) mod 64) in
  msg ++ [x80] ++ repeat x00 k ++ be_bytes 8 ((8 * l) mod 2 ^ 64).

Fixpoint words (n : nat) (bs : bytes) : list Z :=
  match n with
  | O => []
  | S k => be_word (firstn 4 bs) :: words k (skipn 4 bs)
  end.

Definition f (t : nat) (b c d : Z) : Z :=
  if (t <? 20)%nat then Z.lor (Z.land b c) (Z.land (not32 b) d)
  else if (t <? 40)%nat then Z.lxor (Z.lxor b c) d
  else if (t <? 60)%nat then
    Z.lor (Z.lor (Z.land b c) (Z.land b d)) (Z.land c d)
  else Z.lxor (Z.lxor b c) d.

Definition K (t : nat) : Z :=
  if (t <? 20)%nat then 0x5A827999
  else if (t <? 40)%nat then 0x6ED9EBA1
  else if (t <? 60)%nat then 0x8F1BBCDC
  else 0xCA62C1D6.

Record regs := Regs { ra : Z; rb : Z; rc : Z; rd : Z; re : Z }.

Definition H0 : regs :=
  Regs 0x67452301 0xEFCDAB89 0x98BADCFE 0x10325476 0xC3D2E1F0.

(** The message schedule is kept as a window of sixteen words: the head is
    W(t), and W(t+16) is appended as the window slides. *)
Definition next_w (win : list Z) : Z :=
  rotl 1 (Z.lxor (Z.lxor (Z.lxor (nth 13 win 0) (nth 8 win 0))
                         (nth 2 win 0)) (nth 0 win 0)).

Definition round (t : nat) (r : regs) (wt : Z) : regs :=
  let temp :=
    add32 (add32 (add32 (add32 (rotl 5 (ra r)) (f t (rb r) (rc r) (rd r)))
                        (re r)) wt) (K t) in
  Regs temp (ra r) (rotl 30 (rb r)) (rc r) (rd r).

Fixpoint rounds (n t : nat) (win : list Z) (r : regs) : regs :=
  match n with
  | O => r
  | S k => rounds k (S t) (tl win ++ [next_w win]) (round t r (hd 0 win))
  end.

Definition compress (h : regs) (block : bytes) : regs :=
  let r := rounds 80 0 (words 16 block) h in
  Regs (add32 (ra h) (ra r)) (add32 (rb h) (rb r)) (add32 (rc h) (rc r))
       (add32 (rd h) (rd r)) (add32 (re h) (re r)).

Fixpoint blocks (n : nat) (h : regs) (bs : bytes) : regs :=
  match n with
  | O => h
  | S k => blocks k (compress h (firstn 64 bs)) (skipn 64 bs)
  end.

Definition hash (msg : bytes) : bytes :=
  let p := pad msg in
  let h := blocks (length p / 64) H0 p in
  be_bytes 4 (ra h) ++ be_bytes 4 (rb h) ++ be_bytes 4 (rc h)
    ++ be_bytes 4 (rd h) ++ be_bytes 4 (re h).

(** The hash object of [hashlib]: its state is the data fed so far. *)
Record t := Obj { fed : bytes }.

Definition new : t := Obj [].
Definition update (h : t) (data : bytes) : t := Obj (fed h ++ data).
Definition copy (h : t) : t := Obj (fed h).
Definition digest (h : t) : bytes := hash (fed h).

End SHA1.

(** Lowercase hexadecimal, as [bytes.hex()], to write digests down. *)
Definition hex (s : bytes) : string :=
  let digit (n : N) : ascii :=
    nth (N.to_nat n) (list_ascii_of_string "0123456789abcdef") "0"%char in
  string_of_list_ascii
    (flat_map (fun b => [digit (Byte.to_N b / 16)%N;
                         digit (Byte.to_N b mod 16)%N]) s).

(** ** [hmac.new(key, msg, digestmod=hashlib.sha1)]

    The [HMAC] class of Python's [hmac] module, in its pure-Python
    construction: two hash objects, the key padded to the block size and
    translated through the 0x5C and 0x36 tables, the message fed to the
    inner object, the inner digest fed to a copy of the outer object. *)

Module HMAC.

Record t := Obj { outer : SHA1.t; inner : SHA1.t }.

(** [key.translate(bytes((x ^ c) for x in range(256)))] *)
Definition translate (c : N) (key : bytes) : bytes :=
  map (fun b => byte_of_N (N.lxor (Byte.to_N b) c)) key.

(** [key.ljust(width, b'\0')] *)
Definition ljust (width : nat) (key : bytes) : bytes :=
  key ++ repeat x00 (width - length key).

Definition update (h : t) (msg : bytes) : t :=
  Obj (outer h) (SHA1.update (inner h) msg).

Definition new (key : bytes) (msg : option bytes) : t :=
  let blocksize := SHA1.block_size in
  let key :=
    if (blocksize <? length key)%nat
    then SHA1.digest (SHA1.update SHA1.new key) else key in
  let key := ljust blocksize key in
  let self := Obj (SHA1.update SHA1.new (translate 0x5C key))
                  (SHA1.update SHA1.new (translate 0x36 key)) in
  match msg with
  | Some m => update self m
  | None => self
  end.

Definition digest (self : t) : bytes :=
  let h := SHA1.copy (outer self) in
  let h := SHA1.update h (SHA1.digest (inner self)) in
  SHA1.digest h.

End HMAC.

(** ** [base64.b64encode] (RFC 4648, section 4) *)

Definition b64_alphabet : bytes :=
  blit "ABCDEFGHIJKLMNOPQRSTUVWXYZabcdefghijklmnopqrstuvwxyz0123456789+/".

Definition b64_pad : byte := "=".

Definition b64_char (i : N) : byte := nth (N.to_nat i) b64_alphabet b64_pad.

Fixpoint b64encode (s : bytes) : bytes :=
  match s with
  | [] => []
  | [a] =>
    let n := (Byte.to_N a * 65536)%N in
    [b64_char (n / 262144); b64_char ((n / 4096) mod 64); b64_pad; b64_pad]
  | [a; b] =>
    let n := (Byte.to_N a * 65536 + Byte.to_N b * 256)%N in
    [b64_char (n / 262144); b64_char ((n / 4096) mod 64);
     b64_char ((n / 64) mod 64); b64_pad]
  | a :: b :: c :: rest =>
    let n := (Byte.to_N a * 65536 + Byte.to_N b * 256 + Byte.to_N c)%N in
    b64_char (n / 262144) :: b64_char ((n / 4096) mod 64)
      :: b64_char ((n / 64) mod 64) :: b64_char (n mod 64) :: b64encode rest
  end.

(** [base64.b64decode] (RFC 4648), used to state that [b64encode] loses
    nothing. *)
Fixpoint index_of (b : byte) (l : bytes) (i : N) : option N :=
  match l with
  | [] => None
  | x :: rest => if Byte.eqb x b then Some i else index_of b rest (N.succ i)
  end.

Definition b64_index (b : byte) : option N := index_of b b64_alphabet 0%N.

Fixpoint b64decode (s : bytes) : option bytes :=
  match s with
  | [] => Some []
  | c1 :: c2 :: c3 :: c4 :: rest =>
    match b64_index c1, b64_index c2 with
    | Some i1, Some i2 =>
      let n12 := (i1 * 262144 + i2 * 4096)%N in
      if Byte.eqb c3 b64_pad then
        match rest with
        | [] => if Byte.eqb c4 b64_pad then Some [byte_of_N (n12 / 65536)]
                else None
        | _ => None
        end
      else
        match b64_index c3 with
        | Some i3 =>
          let n123 := (n12 + i3 * 64)%N in
          if Byte.eqb c4 b64_pad then
            match rest with
            | [] => Some [byte_of_N (n123 / 65536);
                          byte_of_N ((n123 / 256) mod 256)]
            | _ => None
            end
          else
            match b64_index c4, b64decode rest with
            | Some i4, Some tail =>
              let n := (n123 + i4)%N in
              Some (byte_of_N (n / 65536) :: byte_of_N ((n / 256) mod 256)
                      :: byte_of_N (n mod 256) :: tail)
            | _, _ => None
            end
        | None => None
        end
    | _, _ => None
    end
  | _ => None
  end.

(** ** [json.dumps] with its default arguments

    [ensure_ascii=True], item separator [", "], key separator [": "].
    The values are the JSON-serialisable Python values without floats and
    without cycles; a dictionary is the list of its items in insertion
    order, its keys strings.
    Two errors are kept: [ValueError] for an [int] too long to print, and
    [RecursionError] when a list or dictionary lies deeper than [depth], the
    recursion depth the interpreter has left when the encoder starts (every
    list and dictionary, the outermost and the empty ones too, takes one
    level).  The first error met from left to right is the one raised. *)

Inductive json : Type :=
| JNone
| JBool (b : bool)
| JInt (z : Z)
| JStr (s : pystr)
| JList (items : list json)
| JDict (items : list (pystr * json)).

Definition hex4 (n : N) : pystr :=
  let digit (d : N) : N :=
    nth (N.to_nat d) (lit "0123456789abcdef") 48%N in
  [digit ((n / 4096) mod 16); digit ((n / 256) mod 16);
   digit ((n / 16) mod 16); digit (n mod 16)]%N.

Definition backslash : pystr := [92%N].

(** The replacement of one character by [py_encode_basestring_ascii]. *)
Definition escape_ascii (c : N) : pystr :=
  (if c =? 92 then backslash ++ backslash
   else if c =? 34 then backslash ++ dq
   else if c =? 8 then backslash ++ lit "b"
   else if c =? 12 then backslash ++ lit "f"
   else if c =? 10 then backslash ++ lit "n"
   else if c =? 13 then backslash ++ lit "r"
   else if c =? 9 then backslash ++ lit "t"
   else if (32 <=? c) && (c <=? 126) then [c]
   else if c <? 0x10000 then backslash ++ lit "u" ++ hex4 c
   else
     let n := c - 0x10000 in
     let s1 := N.lor 0xD800 (N.land (N.shiftr n 10) 0x3FF) in
     let s2 := N.lor 0xDC00 (N.land n 0x3FF) in
     backslash ++ lit "u" ++ hex4 s1 ++ backslash ++ lit "u" ++ hex4 s2)%N.

Definition encode_basestring_ascii (s : pystr) : pystr :=
  dq ++ flat_map escape_ascii s ++ dq.

(** The results of a sequence of steps, or the first error. *)
Fixpoint collect {A : Type} (steps : list (exn + A)) : exn + list A :=
  match steps with
  | [] => inr []
  | inl e :: _ => inl e
  | inr a :: rest =>
    match collect rest with
    | inl e => inl e
    | inr others => inr (a :: others)
    end
  end.

Fixpoint dumps (depth : nat) (obj : json) {struct obj} : exn + pystr :=
  match obj with
  | JNone => inr (lit "null")
  | JBool true => inr (lit "true")
  | JBool false => inr (lit "false")
  | JInt z => str_of_int z
  | JStr s => inr (encode_basestring_ascii s)
  | JList items =>
    match depth with
    | O => inl RecursionError
    | S deeper =>
      match collect (map (dumps deeper) items) with
      | inl e => inl e
      | inr parts => inr (lit "[" ++ join (lit ", ") parts ++ lit "]")
      end
    end
  | JDict items =>
    match depth with
    | O => inl RecursionError
    | S deeper =>
      match
        collect
          (map (fun kv : pystr * json =>
                  let (k, v) := kv in
                  match dumps deeper v with
                  | inl e => inl e
                  | inr t => inr (encode_basestring_ascii k ++ lit ": " ++ t)
                  end) items)
      with
      | inl e => inl e
      | inr parts => inr (lit "{" ++ join (lit ", ") parts ++ lit "}")
      end
    end
  end.

(** ** [requests]: requests, responses and [Response.text] *)

Inductive verb : Type := GET | POST | PUT | DELETE.

(** The values found in the [data] and [headers] dictionaries. *)
Inductive value : Type :=
| VStr (s : pystr)
| VBytes (b : bytes)
| VInt (z : Z).

Definition dict := list (pystr * value).

(** The arguments of one call [requests.<verb>(url, data=, headers=,
    verify=)]; an argument that is not passed is [None], and [verify]
    defaults to [True]. *)
Record Request := mkRequest {
  method : verb;
  url : pystr;
  data : option dict;
  headers : option dict;
  verify : bool
}.

Inductive codec : Type := UTF8 | Latin1.

(** A [requests.Response]: [encoding] is what the server declared (if
    anything), [apparent_encoding] what the library would guess. *)
Record Response := mkResponse {
  status_code : Z;
  content : bytes;
  encoding : option codec;
  apparent_encoding : codec
}.

Definition set_encoding (r : Response) (c : codec) : Response :=
  mkResponse (status_code r) (content r) (Some c) (apparent_encoding r).

Definition replacement : N := 0xFFFD%N.

Definition between (lo hi : N) (b : byte) : bool :=
  ((lo <=? Byte.to_N b) && (Byte.to_N b <=? hi))%N.

Definition low6 (b : byte) : N := (Byte.to_N b mod 64)%N.

(** [bytes.decode('utf-8', errors='replace')]: every maximal ill-formed
    subsequence becomes one U+FFFD. *)
Fixpoint utf8_decode_replace (s : bytes) : pystr :=
  match s with
  | [] => []
  | b0 :: r0 =>
    let c0 := Byte.to_N b0 in
    if (c0 <? 0x80)%N then c0 :: utf8_decode_replace r0
    else if ((c0 <? 0xC2) || (0xF4 <? c0))%N then
      replacement :: utf8_decode_replace r0
    else if (c0 <? 0xE0)%N then
      match r0 with
      | [] => [replacement]
      | b1 :: r1 =>
        if between 0x80 0xBF b1
        then ((c0 - 0xC0) * 64 + low6 b1)%N :: utf8_decode_replace r1
        else replacement :: utf8_decode_replace r0
      end
    else if (c0 <? 0xF0)%N then
      let lo := if (c0 =? 0xE0)%N then 0xA0%N else 0x80%N in
      let hi := if (c0 =? 0xED)%N then 0x9F%N else 0xBF%N in
      match r0 with
      | [] => [replacement]
      | b1 :: r1 =>
        if between lo hi b1 then
          match r1 with
          | [] => [replacement]
          | b2 :: r2 =>
            if between 0x80 0xBF b2
            then ((c0 - 0xE0) * 4096 + low6 b1 * 64 + low6 b2)%N
                   :: utf8_decode_replace r2
            else replacement :: utf8_decode_replace r1
          end
        else replacement :: utf8_decode_replace r0
      end
    else
      let lo := if (c0 =? 0xF0)%N then 0x90%N else 0x80%N in
      let hi := if (c0 =? 0xF4)%N then 0x8F%N else 0xBF%N in
      match r0 with
      | [] => [replacement]
      | b1 :: r1 =>
        if between lo hi b1 then
          match r1 with
          | [] => [replacement]
          | b2 :: r2 =>
            if between 0x80 0xBF b2 then
              match r2 with
              | [] => [replacement]
              | b3 :: r3 =>
                if between 0x80 0xBF b3
                then ((c0 - 0xF0) * 262144 + low6 b1 * 4096
                      + low6 b2 * 64 + low6 b3)%N :: utf8_decode_replace r3
                else replacement :: utf8_decode_replace r2
              end
            else replacement :: utf8_decode_replace r1
          end
        else replacement :: utf8_decode_replace r0
      end
  end.

Definition decode (c : codec) (s : bytes) : pystr :=
  match c with
  | UTF8 => utf8_decode_replace s
  | Latin1 => map Byte.to_N s
  end.

(** [Response.text] *)
Definition text (r : Response) : pystr :=
  match content r with
  | [] => []
  | _ =>
    match encoding r with
    | Some c => decode c (content r)
    | None => decode (apparent_encoding r) (content r)
    end
  end.

(** ** Programs: the effects of a method call

    A method reads the clock ([str(time.time())]), calls [json.dumps] (whose
    [RecursionError] depends on the interpreter that runs it), calls
    [requests], raises or returns. *)

Inductive Prog (A : Type) : Type :=
| Ret (a : A)
| Raise (e : exn)
| Time (k : pystr -> Prog A)
| Dumps (obj : json) (k : pystr -> Prog A)
| Call (r : Request) (k : Response -> Prog A).

Arguments Ret {A} a.
Arguments Raise {A} e.
Arguments Time {A} k.
Arguments Dumps {A} obj k.
Arguments Call {A} r k.

Fixpoint bind {A B : Type} (p : Prog A) (f : A -> Prog B) : Prog B :=
  match p with
  | Ret a => f a
  | Raise e => Raise e
  | Time k => Time (fun ts => bind (k ts) f)
  | Dumps obj k => Dumps obj (fun t => bind (k t) f)
  | Call r k => Call r (fun resp => bind (k resp) f)
  end.

Declare Scope prog_scope.
Delimit Scope prog_scope with prog.
Notation "x <- p ;; q" := (bind p (fun x => q))
  (at level 61, p at next level, right associativity) : prog_scope.
Open Scope prog_scope.

(** [str(time.time())] *)
Definition time_str : Prog pystr := Time Ret.

(** [json.dumps(obj)] *)
Definition json_dumps (obj : json) : Prog pystr := Dumps obj Ret.

(** A pure step that can raise. *)
Definition lift {A : Type} (step : exn + A) : Prog A :=
  match step with
  | inl e => Raise e
  | inr a => Ret a
  end.

(** [requests.get], [requests.post], [requests.put], [requests.delete] *)
Module requests.
Definition get (url : pystr) (headers : option dict) : Prog Response :=
  Call (mkRequest GET url None headers true) Ret.
Definition post (url : pystr) (data headers : option dict)
  : Prog Response :=
  Call (mkRequest POST url data headers true) Ret.
Definition put (url : pystr) (data headers : option dict)
  : Prog Response :=
  Call (mkRequest PUT url data headers true) Ret.
Definition delete (url : pystr) (data headers : option dict)
  : Prog Response :=
  Call (mkRequest DELETE url data headers true) Ret.
End requests.

(** The world outside the program: the clock, read once per [time_str],
    the transport, which answers a request (given the requests sent before
    it) with a response or raises, and the recursion depth the interpreter
    has left for the encoder of [json.dumps]. *)
Record World := mkWorld {
  clock : nat -> pystr;
  transport : list Request -> Request -> exn + Response;
  json_depth : nat
}.

Record State := mkState {
  ticks : nat;             (* clock readings so far *)
  sent : list Request      (* requests issued so far, oldest first *)
}.

Inductive Outcome (A : Type) : Type :=
| Returned (a : A)
| Raised (e : exn).

Arguments Returned {A} a.
Arguments Raised {A} e.

Fixpoint run {A : Type} (w : World) (p : Prog A) (s : State)
  : Outcome A * State :=
  match p with
  | Ret a => (Returned a, s)
  | Raise e => (Raised e, s)
  | Time k => run w (k (clock w (ticks s))) (mkState (S (ticks s)) (sent s))
  | Dumps obj k =>
    match dumps (json_depth w) obj with
    | inl e => (Raised e, s)
    | inr t => run w (k t) s
    end
  | Call r k =>
    let s' := mkState (ticks s) (sent s ++ [r]) in
    match transport w (sent s) r with
    | inl e => (Raised e, s')
    | inr resp => run w (k resp) s'
    end
  end.

(** A parameter with a default value: [None] when the caller omits it. *)
Definition arg {A : Type} (given : option A) (default : A) : A :=
  match given with
  | Some a => a
  | None => default
  end.

(** ** class ACRCloudConsole *)

Module ACRCloudConsole.

Record t := mk {
  access_key : pystr;
  access_secret : bytes;
  host : pystr;
  signature_version : pystr
}.

Definition __init__ (account_access_key : pystr)
           (account_access_secret : bytes) : t :=
  mk account_access_key account_access_secret
     (lit "api.acrcloud.com") (lit "1").

Definition _sign (self : t) (string_to_sign : pystr) : Prog bytes :=
  match encode string_to_sign with
  | None => Raise UnicodeEncodeError
  | Some message =>
    Ret (b64encode
           (HMAC.digest (HMAC.new (access_secret self) (Some message))))
  end.

Definition _headers (self : t) (signature : bytes) (timestamp : pystr)
  : dict :=
  [(lit "access-key", VStr (access_key self));
   (lit "signature-version", VStr (signature_version self));
   (lit "signature", VBytes signature);
   (lit "timestamp", VStr timestamp)].

Definition add_project (self : t) (project_name : pystr)
           (type_ : option pystr) (buckets : option (list json))
           (audio_type : option Z) (external_id region : option pystr)
  : Prog pystr :=
  let type_ := arg type_ (lit "BM-ACRC") in
  let audio_type := arg audio_type 2%Z in
  let external_id := arg external_id (lit "") in
  let region := arg region (lit "ap-southeast-1") in
  let buckets :=
    match buckets with
    | None => [JDict [(lit "name", JStr (lit "ACRCloud Music"))]]
    | Some b => b
    end in
  let http_method := lit "POST" in
  let uri := lit "/v1/projects" in
  timestamp <- time_str ;;
  let string_to_sign :=
    join nl [http_method; uri; access_key self; signature_version self;
             timestamp] in
  signature <- _sign self string_to_sign ;;
  let headers := _headers self signature timestamp in
  buckets_json <- json_dumps (JList buckets) ;;
  let data :=
    [(lit "name", VStr project_name); (lit "region", VStr region);
     (lit "type", VStr type_);
     (lit "buckets", VStr buckets_json);
     (lit "audio_type", VInt audio_type);
     (lit "external_id", VStr external_id)] in
  let requrl := lit "https://" ++ host self ++ uri in
  response <- requests.post requrl (Some data) (Some headers) ;;
  let response := set_encoding response UTF8 in
  Ret (text response).

Definition update_project (self : t) (project_name : pystr)
           (buckets : option (list json)) : Prog pystr :=
  let buckets :=
    match buckets with
    | None => [JDict [(lit "name", JStr (lit "ACRCloud Music"))]]
    | Some b => b
    end in
  let http_method := lit "POST" in
  let uri := lit "/v1/projects/" ++ project_name in
  timestamp <- time_str ;;
  let string_to_sign :=
    join nl [http_method; uri; access_key self; signature_version self;
             timestamp] in
  signature <- _sign self string_to_sign ;;
  let headers := _headers self signature timestamp in
  buckets_json <- json_dumps (JList buckets) ;;
  let data := [(lit "buckets", VStr buckets_json)] in
  let requrl := lit "https://" ++ host self ++ uri in
  response <- requests.post requrl (Some data) (Some headers) ;;
  let response := set_encoding response UTF8 in
  Ret (text response).

Definition delete_project (self : t) (project_name : pystr)
  : Prog pystr :=
  let http_method := lit "DELETE" in
  let uri := lit "/v1/projects/" ++ project_name in
  timestamp <- time_str ;;
  let string_to_sign :=
    join nl [http_method; uri; access_key self; signature_version self;
             timestamp] in
  signature <- _sign self string_to_sign ;;
  let headers := _headers self signature timestamp in
  let data := [(lit "name", VStr project_name)] in
  let requrl := lit "https://" ++ host self ++ uri in
  response <- requests.delete requrl (Some data) (Some headers) ;;
  let response := set_encoding response UTF8 in
  Ret (text response).

Definition get_project (self : t) (project_name : pystr) : Prog pystr :=
  let http_method := lit "GET" in
  let uri := lit "/v1/projects/" ++ project_name in
  timestamp <- time_str ;;
  let string_to_sign :=
    join nl [http_method; uri; access_key self; signature_version self;
             timestamp] in
  signature <- _sign self string_to_sign ;;
  let headers := _headers self signature timestamp in
  let requrl := lit "https://" ++ host self ++ uri in
  response <- requests.get requrl (Some headers) ;;
  let response := set_encoding response UTF8 in
  Ret (text response).

Definition list_projects (self : t) : Prog pystr :=
  let http_method := lit "GET" in
  let uri := lit "/v1/projects" in
  timestamp <- time_str ;;
  let string_to_sign :=
    join nl [http_method; uri; access_key self; signature_version self;
             timestamp] in
  signature <- _sign self string_to_sign ;;
  let headers := _headers self signature timestamp in
  let requrl := lit "https://" ++ host self ++ uri in
  response <- requests.get requrl (Some headers) ;;
  let response := set_encoding response UTF8 in
  Ret (text response).

Definition add_monitor (self : t) (project_name stream_name url : pystr)
           (region : option pystr) (realtime record : option Z)
  : Prog pystr :=
  let region := arg region (lit "ap-southeast-1") in
  let realtime := arg realtime 1%Z in
  let record := arg record 0%Z in
  let http_method := lit "POST" in
  let uri := lit "/v1/monitor-streams" in
  timestamp <- time_str ;;
  let string_to_sign :=
    join nl [http_method; uri; access_key self; signature_version self;
             timestamp] in
  signature <- _sign self string_to_sign ;;
  let headers := _headers self signature timestamp in
  let data :=
    [(lit "project_name", VStr project_name);
     (lit "stream_name", VStr stream_name); (lit "url", VStr url);
     (lit "region", VStr region); (lit "realtime", VInt realtime);
     (lit "record", VInt record)] in
  let requrl := lit "https://" ++ host self ++ uri in
  response <- requests.post requrl (Some data) (Some headers) ;;
  let response := set_encoding response UTF8 in
  Ret (text response).

Definition update_monitor (self : t) (stream_id stream_name url : pystr)
           (region : option pystr) (realtime record : option Z)
  : Prog pystr :=
  let region := arg region (lit "ap-southeast-1") in
  let realtime := arg realtime 1%Z in
  let record := arg record 0%Z in
  let http_method := lit "PUT" in
  let uri := lit "/v1/monitor-streams/" ++ stream_id in
  timestamp <- time_str ;;
  let string_to_sign :=
    join nl [http_method; uri; access_key self; signature_version self;
             timestamp] in
  signature <- _sign self string_to_sign ;;
  let headers := _headers self signature timestamp in
  let data :=
    [(lit "stream_name", VStr stream_name); (lit "url", VStr url);
     (lit "region", VStr region); (lit "realtime", VInt realtime);
     (lit "record", VInt record)] in
  let requrl := lit "https://" ++ host self ++ uri in
  response <- requests.put requrl (Some data) (Some headers) ;;
  let response := set_encoding response UTF8 in
  Ret (text response).

Definition get_all_monitors (self : t) (project_name : pystr)
  : Prog pystr :=
  let http_method := lit "GET" in
  let uri := lit "/v1/monitor-streams" in
  timestamp <- time_str ;;
  let string_to_sign :=
    join nl [http_method; uri; access_key self; signature_version self;
             timestamp] in
  signature <- _sign self string_to_sign ;;
  let headers := _headers self signature timestamp in
  let data := [(lit "project_name", VStr project_name)] in
  let requrl := lit "https://" ++ host self ++ uri in
  response <- requests.put requrl (Some data) (Some headers) ;;
  let response := set_encoding response UTF8 in
  Ret (text response).

Definition get_monitor (self : t) (stream_id : pystr) : Prog pystr :=
  let http_method := lit "GET" in
  let uri := lit "/v1/monitor-streams/" ++ stream_id in
  timestamp <- time_str ;;
  let string_to_sign :=
    join nl [http_method; uri; access_key self; signature_version self;
             timestamp] in
  signature <- _sign self string_to_sign ;;
  let headers := _headers self signature timestamp in
  let requrl := lit "https://" ++ host self ++ uri in
  response <- requests.get requrl (Some headers) ;;
  let response := set_encoding response UTF8 in
  Ret (text response).

Definition delete_monitor (self : t) (stream_id : pystr) : Prog pystr :=
  let http_method := lit "DELETE" in
  let uri := lit "/v1/monitor-streams/" ++ stream_id in
  timestamp <- time_str ;;
  let string_to_sign :=
    join nl [http_method; uri; access_key self; signature_version self;
             timestamp] in
  signature <- _sign self string_to_sign ;;
  let headers := _headers self signature timestamp in
  let requrl := lit "https://" ++ host self ++ uri in
  response <- requests.delete requrl None (Some headers) ;;
  let response := set_encoding response UTF8 in
  Ret (text response).

Definition action_monitor (self : t) (stream_id action : pystr)
  : Prog pystr :=
  let http_method := lit "PUT" in
  let uri := lit "/v1/monitor-streams/" ++ stream_id ++ lit "/" ++ action in
  timestamp <- time_str ;;
  let string_to_sign :=
    join nl [http_method; uri; access_key self; signature_version self;
             timestamp] in
  signature <- _sign self string_to_sign ;;
  let headers := _headers self signature timestamp in
  let requrl := lit "https://" ++ host self ++ uri in
  response <- requests.put requrl None (Some headers) ;;
  let response := set_encoding response UTF8 in
  Ret (text response).

Definition pause_monitor (self : t) (stream_id : pystr) : Prog pystr :=
  action_monitor self stream_id (lit "pause").

Definition restart_monitor (self : t) (stream_id : pystr) : Prog pystr :=
  action_monitor self stream_id (lit "restart").

End ACRCloudConsole.

(** ** class ACRCloudStreamMonitor *)

Module ACRCloudStreamMonitor.

Record t := mk {
  access_key : pystr;
  stream_id : pystr
}.

Definition __init__ (project_access_key stream_id : pystr) : t :=
  mk project_access_key stream_id.

Definition last_results (self : t) : Prog pystr :=
  let requrl :=
    lit "https://api.acrcloud.com/v1/monitor-streams/" ++ stream_id self
      ++ lit "/results?access_key=" ++ access_key self in
  response <- requests.get requrl None ;;
  let response := set_encoding response UTF8 in
  Ret (text response).

Definition current_results (self : t) : Prog pystr :=
  let requrl :=
    lit "https://api.acrcloud.com/v1/monitor-streams/" ++ stream_id self
      ++ lit "/results?access_key=" ++ access_key self
      ++ lit "&type=current" in
  response <- requests.get requrl None ;;
  let response := set_encoding response UTF8 in
  Ret (text response).

Definition multiple_last_results (self : t) (limit : Z) : Prog pystr :=
  limit_text <- lift (str_of_int limit) ;;
  let requrl :=
    lit "https://api.acrcloud.com/v1/monitor-streams/" ++ stream_id self
      ++ lit "/results?access_key=" ++ access_key self
      ++ lit "&limit=" ++ limit_text in
  response <- requests.get requrl None ;;
  let response := set_encoding response UTF8 in
  Ret (text response).

Definition day_results (self : t) (date : pystr) : Prog pystr :=
  let requrl :=
    lit "https://api.acrcloud.com/v1/monitor-streams/" ++ stream_id self
      ++ lit "/results?access_key=" ++ access_key self
      ++ lit "&date=" ++ date in
  response <- requests.get requrl None ;;
  let response := set_encoding response UTF8 in
  Ret (text response).

Definition month_results (self : t) (month : pystr) : Prog Response :=
  let requrl :=
    lit "https://monitoring-result.acrcloud.com/" ++ access_key self
      ++ lit "/" ++ stream_id self ++ lit "/" ++ month ++ lit ".zip" in
  response <- requests.get requrl None ;;
  Ret response.

Definition period_results (self : t) (begin_time : pystr)
           (end_time : option pystr) : Prog pystr :=
  let end_time := arg end_time (lit "") in
  let requrl :=
    lit "https://api.acrcloud.com/v1/monitor-streams/" ++ stream_id self
      ++ lit "/results?access_key=" ++ access_key self
      ++ lit "&begin_time=" ++ begin_time
      ++ lit "&end_time=" ++ end_time in
  response <- requests.get requrl None ;;
  let response := set_encoding response UTF8 in
  Ret (text response).

End ACRCloudStreamMonitor.

(** ** The specification's side

    The definitions below follow the specification's wording (section 4.1,
    the operation table of section 4.2 and the table of section 4.3); the
    theorems compare them with the methods above. *)

(** HMAC as RFC 2104 defines it:
    H((K0 xor opad) || H((K0 xor ipad) || text)),
    where K0 is the key, hashed first when longer than a block, then padded
    with zeros to the block size. *)
Definition xor_bytes (c : N) (s : bytes) : bytes :=
  map (fun b => byte_of_N (N.lxor (Byte.to_N b) c)) s.

Definition hmac_sha1 (key text : bytes) : bytes :=
  let k0 := if (64 <? length key)%nat then SHA1.hash key else key in
  let k0 := k0 ++ repeat x00 (64 - length k0) in
  SHA1.hash (xor_bytes 0x5C k0 ++ SHA1.hash (xor_bytes 0x36 k0 ++ text)).

(** [sign(secret, message)] of section 4.1. *)
Definition sign (secret : bytes) (message : pystr) : option bytes :=
  match encode message with
  | Some m => Some (b64encode (hmac_sha1 secret m))
  | None => None
  end.

(** The canonical message of section 4.1. *)
Definition canonical (httpMethod uriPath accessKey signatureVersion
                      timestampString : pystr) : pystr :=
  httpMethod ++ nl ++ uriPath ++ nl ++ accessKey ++ nl
    ++ signatureVersion ++ nl ++ timestampString.

Definition verb_name (v : verb) : pystr :=
  match v with
  | GET => lit "GET"
  | POST => lit "POST"
  | PUT => lit "PUT"
  | DELETE => lit "DELETE"
  end.

(** One call of a signed console operation, with its arguments. *)
Inductive console_call : Type :=
| AddProject (project_name : pystr) (type_ : option pystr)
             (buckets : option (list json)) (audio_type : option Z)
             (external_id region : option pystr)
| UpdateProject (project_name : pystr) (buckets : option (list json))
| DeleteProject (project_name : pystr)
| GetProject (project_name : pystr)
| ListProjects
| AddMonitor (project_name stream_name url : pystr) (region : option pystr)
             (realtime record : option Z)
| UpdateMonitor (stream_id stream_name url : pystr) (region : option pystr)
                (realtime record : option Z)
| GetAllMonitors (project_name : pystr)
| GetMonitor (stream_id : pystr)
| DeleteMonitor (stream_id : pystr)
| ActionMonitor (stream_id action : pystr).

Definition invoke (self : ACRCloudConsole.t) (c : console_call)
  : Prog pystr :=
  match c with
  | AddProject n t b a e r => ACRCloudConsole.add_project self n t b a e r
  | UpdateProject n b => ACRCloudConsole.update_project self n b
  | DeleteProject n => ACRCloudConsole.delete_project self n
  | GetProject n => ACRCloudConsole.get_project self n
  | ListProjects => ACRCloudConsole.list_projects self
  | AddMonitor p n u r rt rc => ACRCloudConsole.add_monitor self p n u r rt rc
  | UpdateMonitor i n u r rt rc =>
    ACRCloudConsole.update_monitor self i n u r rt rc
  | GetAllMonitors p => ACRCloudConsole.get_all_monitors self p
  | GetMonitor i => ACRCloudConsole.get_monitor self i
  | DeleteMonitor i => ACRCloudConsole.delete_monitor self i
  | ActionMonitor i a => ACRCloudConsole.action_monitor self i a
  end.

(** The Method column of the operation table. *)
Definition table_method (c : console_call) : verb :=
  match c with
  | AddProject _ _ _ _ _ _ => POST
  | UpdateProject _ _ => POST
  | DeleteProject _ => DELETE
  | GetProject _ => GET
  | ListProjects => GET
  | AddMonitor _ _ _ _ _ _ => POST
  | UpdateMonitor _ _ _ _ _ _ => PUT
  | GetAllMonitors _ => GET
  | GetMonitor _ => GET
  | DeleteMonitor _ => DELETE
  | ActionMonitor _ _ => PUT
  end.

(** The Path column of the operation table. *)
Definition table_path (c : console_call) : pystr :=
  match c with
  | AddProject _ _ _ _ _ _ => lit "/v1/projects"
  | UpdateProject name _ => lit "/v1/projects/" ++ name
  | DeleteProject name => lit "/v1/projects/" ++ name
  | GetProject name => lit "/v1/projects/" ++ name
  | ListProjects => lit "/v1/projects"
  | AddMonitor _ _ _ _ _ _ => lit "/v1/monitor-streams"
  | UpdateMonitor id _ _ _ _ _ => lit "/v1/monitor-streams/" ++ id
  | GetAllMonitors _ => lit "/v1/monitor-streams"
  | GetMonitor id => lit "/v1/monitor-streams/" ++ id
  | DeleteMonitor id => lit "/v1/monitor-streams/" ++ id
  | ActionMonitor id action =>
    lit "/v1/monitor-streams/" ++ id ++ lit "/" ++ action
  end.

(** The four headers of a signed call. *)
Definition signed_headers (self : ACRCloudConsole.t) (signature : bytes)
           (timestamp : pystr) : dict :=
  [(lit "access-key", VStr (ACRCloudConsole.access_key self));
   (lit "signature-version", VStr (ACRCloudConsole.signature_version self));
   (lit "signature", VBytes signature);
   (lit "timestamp", VStr timestamp)].

(** The bucket list a call serialises: the one given, or the default. *)
Definition bucket_list (buckets : option (list json)) : list json :=
  match buckets with
  | Some given => given
  | None => [JDict [(lit "name", JStr (lit "ACRCloud Music"))]]
  end.

(** The value a console call passes to [json.dumps], if it has one. *)
Definition payload (c : console_call) : option json :=
  match c with
  | AddProject _ _ b _ _ _ => Some (JList (bucket_list b))
  | UpdateProject _ b => Some (JList (bucket_list b))
  | _ => None
  end.

(** The JSON text of the payload; the empty text where there is none. *)
Definition json_text (p : option json) : Prog pystr :=
  match p with
  | Some obj => json_dumps obj
  | None => Ret []
  end.

(** What [json_text] gives in an interpreter with [depth] levels left. *)
Definition text_of (depth : nat) (p : option json) : exn + pystr :=
  match p with
  | Some obj => dumps depth obj
  | None => inr []
  end.

(** The shared per-call procedure of section 4.2: capture the timestamp,
    sign the canonical message, serialise the payload, issue one call,
    return its text. *)
Definition signed_call (self : ACRCloudConsole.t) (httpMethod uriPath : pystr)
           (p : option json) (request : pystr -> bytes -> pystr -> Request)
  : Prog pystr :=
  timestamp <- time_str ;;
  signature <-
    ACRCloudConsole._sign self
      (canonical httpMethod uriPath (ACRCloudConsole.access_key self)
                 (ACRCloudConsole.signature_version self) timestamp) ;;
  body_text <- json_text p ;;
  response <- Call (request timestamp signature body_text) Ret ;;
  Ret (text (set_encoding response UTF8)).

(** One call of a retrieval operation of section 4.3. *)
Inductive retrieval : Type :=
| LastResults
| CurrentResults
| MultipleLastResults (limit : Z)
| DayResults (date : pystr)
| PeriodResults (begin_time : pystr) (end_time : option pystr).

Definition fetch (self : ACRCloudStreamMonitor.t) (r : retrieval)
  : Prog pystr :=
  match r with
  | LastResults => ACRCloudStreamMonitor.last_results self
  | CurrentResults => ACRCloudStreamMonitor.current_results self
  | MultipleLastResults l => ACRCloudStreamMonitor.multiple_last_results self l
  | DayResults d => ACRCloudStreamMonitor.day_results self d
  | PeriodResults b e => ACRCloudStreamMonitor.period_results self b e
  end.

(** The extra query parameters of the table of section 4.3. *)
Definition extra_params (r : retrieval) : list (pystr * pystr) :=
  match r with
  | LastResults => []
  | CurrentResults => [(lit "type", lit "current")]
  | MultipleLastResults l => [(lit "limit", decimal l)]
  | DayResults d => [(lit "date", d)]
  | PeriodResults b e =>
    [(lit "begin_time", b); (lit "end_time", arg e (lit ""))]
  end.

(** [&k=v] for every extra parameter, values as they are. *)
Definition query_suffix (ps : list (pystr * pystr)) : pystr :=
  flat_map (fun kv => lit "&" ++ fst kv ++ lit "=" ++ snd kv) ps.

Definition results_url (self : ACRCloudStreamMonitor.t) : pystr :=
  lit "https://api.acrcloud.com/v1/monitor-streams/"
    ++ ACRCloudStreamMonitor.stream_id self
    ++ lit "/results?access_key=" ++ ACRCloudStreamMonitor.access_key self.

(** The request each console operation builds, its method and body as the
    method passes them to [requests]. *)
Definition issued_method (c : console_call) : verb :=
  match c with
  | GetAllMonitors _ => PUT
  | _ => table_method c
  end.

Definition default_buckets : pystr :=
  lit "[{" ++ dq ++ lit "name" ++ dq ++ lit ": " ++ dq
    ++ lit "ACRCloud Music" ++ dq ++ lit "}]".

Definition body (c : console_call) (buckets_text : pystr) : option dict :=
  match c with
  | AddProject n t b a e r =>
    Some [(lit "name", VStr n);
          (lit "region", VStr (arg r (lit "ap-southeast-1")));
          (lit "type", VStr (arg t (lit "BM-ACRC")));
          (lit "buckets", VStr buckets_text);
          (lit "audio_type", VInt (arg a 2%Z));
          (lit "external_id", VStr (arg e (lit "")))]
  | UpdateProject _ b => Some [(lit "buckets", VStr buckets_text)]
  | DeleteProject n => Some [(lit "name", VStr n)]
  | AddMonitor p n u r rt rc =>
    Some [(lit "project_name", VStr p); (lit "stream_name", VStr n);
          (lit "url", VStr u);
          (lit "region", VStr (arg r (lit "ap-southeast-1")));
          (lit "realtime", VInt (arg rt 1%Z));
          (lit "record", VInt (arg rc 0%Z))]
  | UpdateMonitor _ n u r rt rc =>
    Some [(lit "stream_name", VStr n); (lit "url", VStr u);
          (lit "region", VStr (arg r (lit "ap-southeast-1")));
          (lit "realtime", VInt (arg rt 1%Z));
          (lit "record", VInt (arg rc 0%Z))]
  | GetAllMonitors p => Some [(lit "project_name", VStr p)]
  | _ => None
  end.

Definition request_of (self : ACRCloudConsole.t) (c : console_call)
           (ts : pystr) (signature : bytes) (buckets_text : pystr)
  : Request :=
  mkRequest (issued_method c)
            (lit "https://" ++ ACRCloudConsole.host self ++ table_path c)
            (body c buckets_text) (Some (signed_headers self signature ts))
            true.

(** Whether [str] prints the integer: at most [int_max_str_digits] digits. *)
Definition printable_int (z : Z) : bool :=
  (Z.abs z <? 10 ^ int_max_str_digits)%Z.

(** Whether ['{}'.format] can print what a retrieval puts in its query. *)
Definition limit_fits (r : retrieval) : bool :=
  match r with
  | MultipleLastResults limit => printable_int limit
  | _ => true
  end.

(** The requests a program issues when run from a state. *)
Definition issued {A : Type} (w : World) (p : Prog A) (s : State)
  : list Request :=
  skipn (length (sent s)) (sent (snd (run w p s))).

Definition outcome {A : Type} (w : World) (p : Prog A) (s : State)
  : Outcome A :=
  fst (run w p s).

(** What one GET, without headers or body, whose text is returned does. *)
Definition get_text (w : World) (s : State) (requrl : pystr)
  : Outcome pystr * State :=
  let request := mkRequest GET requrl None None true in
  (match transport w (sent s) request with
   | inl e => Raised e
   | inr response => Returned (utf8_decode_replace (content response))
   end,
   mkState (ticks s) (sent s ++ [request])).

(** Lookup in a dictionary. *)
Fixpoint eqb_str (a b : pystr) : bool :=
  match a, b with
  | [], [] => true
  | x :: a', y :: b' => (x =? y)%N && eqb_str a' b'
  | _, _ => false
  end.

Fixpoint lookup (k : pystr) (d : dict) : option value :=
  match d with
  | [] => None
  | (k', v) :: rest => if eqb_str k k' then Some v else lookup k rest
  end.

Definition field (k : pystr) (d : option dict) : option value :=
  match d with
  | Some d => lookup k d
  | None => None
  end.

(** A concrete world for the examples: the clock always reads 1000.0, the
    server answers every request with status 200 and the body "ok", and the
    interpreter has a hundred levels of recursion left. *)
Definition world0 : World :=
  mkWorld (fun _ => lit "1000.0")
          (fun _ _ => inr (mkResponse 200 (blit "ok") None UTF8)) 100.

(** A world whose server rejects every request with status 404. *)
Definition world404 : World :=
  mkWorld (fun _ => lit "1000.0")
          (fun _ _ => inr (mkResponse 404 (blit "not found") None Latin1))
          100.

Definition state0 : State := mkState 0 [].

Definition console0 : ACRCloudConsole.t :=
  ACRCloudConsole.__init__ (lit "K1") (blit "abc").

Definition monitor0 : ACRCloudStreamMonitor.t :=
  ACRCloudStreamMonitor.__init__ (lit "K1") (lit "11396").

(** ** Further definitions used by the properties below *)

(** A string without a newline character. *)
Definition no_newline (s : pystr) : bool :=
  forallb (fun c => negb (c =? 10)%N) s.

(** Printable ASCII, blank to tilde. *)
Definition printable (s : pystr) : bool :=
  forallb (fun c => (32 <=? c)%N && (c <=? 126)%N) s.

(** [a] is the beginning of [b]. *)
Fixpoint starts_with (a b : pystr) : bool :=
  match a, b with
  | [], _ => true
  | x :: a', y :: b' => (x =? y)%N && starts_with a' b'
  | _ :: _, [] => false
  end.

(** [int(s)] for a decimal numeral as [str] prints it. *)
Definition int_of_str (s : pystr) : option Z :=
  option_map Z.of_int
    (NilZero.int_of_string (string_of_list_ascii (map ascii_of_N s))).

(** * Properties *)

Import ACRCloudConsole.

(** ** The models of the libraries

    Test vectors of FIPS 180-4, RFC 2202 and RFC 4648, and the two round
    trips: [b64decode] undoes [b64encode], and decoding undoes [encode]. *)

Example sha1_abc :
  hex (SHA1.hash (blit "abc")) = "a9993e364706816aba3e25717850c26c9cd0d89d"%string.
Proof. vm_compute. reflexivity. Qed.

Example sha1_empty :
  hex (SHA1.hash []) = "da39a3ee5e6b4b0d3255bfef95601890afd80709"%string.
Proof. vm_compute. reflexivity. Qed.

Example sha1_two_blocks :
  hex (SHA1.hash
         (blit "abcdbcdecdefdefgefghfghighijhijkijkljklmklmnlmnomnopnopq"))
  = "84983e441c3bd26ebaae4aa1f95129e5e54670f1"%string.
Proof. vm_compute. reflexivity. Qed.

Example hmac_rfc2202_case1 :
  hex (HMAC.digest (HMAC.new (repeat x0b 20) (Some (blit "Hi There"))))
  = "b617318655057264e28bc0b6fb378c8ef146be00"%string.
Proof. vm_compute. reflexivity. Qed.

Example hmac_rfc2202_case6 :
  hex (HMAC.digest
         (HMAC.new (repeat xaa 80)
            (Some (blit "Test Using Larger Than Block-Size Key - Hash Key First"))))
  = "aa4ae5e15272d00e95705637ce8a3b55ed402112"%string.
Proof. vm_compute. reflexivity. Qed.

Example b64_rfc4648 :
  map (fun s => b64encode (blit s))
      ["f"; "fo"; "foo"; "foob"; "fooba"; "foobar"]%string
  = map blit ["Zg=="; "Zm8="; "Zm9v"; "Zm9vYg=="; "Zm9vYmE="; "Zm9vYmFy"]%string.
Proof. vm_compute. reflexivity. Qed.

Lemma byte_of_to_N (b : byte) : byte_of_N (Byte.to_N b) = b.
Proof.
  unfold byte_of_N. pose proof (Byte.to_N_bounded b) as Hb.
  rewrite N.mod_small by lia. now rewrite Byte.of_to_N.
Qed.

Lemma to_N_byte_of_N (n : N) : Byte.to_N (byte_of_N n) = (n mod 256)%N.
Proof.
  unfold byte_of_N. destruct (Byte.of_N (n mod 256)) as [b|] eqn:E.
  - now apply Byte.to_of_N.
  - apply Byte.of_N_None_iff in E.
    pose proof (N.mod_upper_bound n 256 ltac:(discriminate)). lia.
Qed.

Lemma b64_char_index (i : N) :
  (i < 64)%N ->
  b64_index (b64_char i) = Some i /\ Byte.eqb (b64_char i) b64_pad = false.
Proof.
  intros Hi.
  assert (Hall : forallb (fun j =>
                    match b64_index (b64_char j) with
                    | Some k => (k =? j)%N
                    | None => false
                    end && negb (Byte.eqb (b64_char j) b64_pad))
                   (map N.of_nat (seq 0 64)) = true)
    by (vm_compute; reflexivity).
  rewrite forallb_forall in Hall.
  specialize (Hall i).
  assert (Hin : In i (map N.of_nat (seq 0 64))).
  { apply in_map_iff. exists (N.to_nat i). split; [apply N2Nat.id|].
    apply in_seq. lia. }
  apply Hall in Hin. apply andb_true_iff in Hin as [H1 H2].
  destruct (b64_index (b64_char i)) as [k|]; [|discriminate].
  apply N.eqb_eq in H1. subst k. split; [reflexivity|].
  now apply negb_true_iff.
Qed.

Lemma list_ind3 {A : Type} (P : list A -> Prop) :
  P [] -> (forall a, P [a]) -> (forall a b, P [a; b]) ->
  (forall a b c l, P l -> P (a :: b :: c :: l)) ->
  forall l, P l.
Proof.
  intros H0 H1 H2 H3.
  fix IH 1. intros [|a [|b [|c l]]];
    [exact H0 | apply H1 | apply H2 | apply H3, IH].
Qed.

Ltac euclid := zify; Z.to_euclidean_division_equations; lia.

Lemma byte_of_N_eq (n : N) (b : byte) : n = Byte.to_N b -> byte_of_N n = b.
Proof. intros ->. apply byte_of_to_N. Qed.

Theorem b64decode_b64encode (s : bytes) : b64decode (b64encode s) = Some s.
Proof.
  induction s as [|a|a b|a b c l IH] using list_ind3.
  - reflexivity.
  - pose proof (Byte.to_N_bounded a) as Ha.
    cbn [b64encode]. cbv zeta. cbn [b64decode].
    set (n := (Byte.to_N a * 65536)%N).
    destruct (@b64_char_index (n / 262144)%N) as [-> _]; [subst n; euclid|].
    destruct (@b64_char_index ((n / 4096) mod 64)%N) as [-> _];
      [subst n; euclid|].
    change (Byte.eqb b64_pad b64_pad) with true. cbv iota.
    repeat f_equal; apply byte_of_N_eq; subst n; euclid.
  - pose proof (Byte.to_N_bounded a) as Ha.
    pose proof (Byte.to_N_bounded b) as Hb.
    cbn [b64encode]. cbv zeta. cbn [b64decode].
    set (n := (Byte.to_N a * 65536 + Byte.to_N b * 256)%N).
    destruct (@b64_char_index (n / 262144)%N) as [-> _]; [subst n; euclid|].
    destruct (@b64_char_index ((n / 4096) mod 64)%N) as [-> _];
      [subst n; euclid|].
    destruct (@b64_char_index ((n / 64) mod 64)%N) as [-> ->];
      [subst n; euclid|].
    change (Byte.eqb b64_pad b64_pad) with true. cbv iota.
    repeat f_equal; apply byte_of_N_eq; subst n; euclid.
  - pose proof (Byte.to_N_bounded a) as Ha.
    pose proof (Byte.to_N_bounded b) as Hb.
    pose proof (Byte.to_N_bounded c) as Hc.
    cbn [b64encode]. cbv zeta. cbn [b64decode]. rewrite IH.
    set (n := (Byte.to_N a * 65536 + Byte.to_N b * 256 + Byte.to_N c)%N).
    destruct (@b64_char_index (n / 262144)%N) as [-> _]; [subst n; euclid|].
    destruct (@b64_char_index ((n / 4096) mod 64)%N) as [-> _];
      [subst n; euclid|].
    destruct (@b64_char_index ((n / 64) mod 64)%N) as [-> ->];
      [subst n; euclid|].
    destruct (@b64_char_index (n mod 64)%N) as [-> ->]; [subst n; euclid|].
    repeat f_equal; apply byte_of_N_eq; subst n; euclid.
Qed.

Ltac decide_test :=
  match goal with
  | |- context [(?a <? ?b)%N] =>
    first [ replace (a <? b)%N with true by (symmetry; apply N.ltb_lt; lia)
          | replace (a <? b)%N with false by (symmetry; apply N.ltb_ge; lia) ]
  | |- context [(?a <=? ?b)%N] =>
    first [ replace (a <=? b)%N with true by (symmetry; apply N.leb_le; lia)
          | replace (a <=? b)%N with false
              by (symmetry; apply N.leb_gt; lia) ]
  | |- context [(?a =? ?b)%N] => destruct (N.eqb_spec a b)
  end.

Ltac decode_step :=
  cbn [app utf8_decode_replace]; cbv zeta; unfold between, low6;
  rewrite !to_N_byte_of_N; rewrite ?(fun n => N.mod_small n 256) by lia;
  repeat (decide_test; cbn [andb orb negb]).

Lemma low6_continuation (r : N) : (r < 64 -> (0x80 + r) mod 64 = r)%N.
Proof. intros. euclid. Qed.

Lemma decode_one (c : N) (tail : bytes) :
  (c < 0x80)%N ->
  utf8_decode_replace (byte_of_N c :: tail) = c :: utf8_decode_replace tail.
Proof. intros. decode_step. reflexivity. Qed.

Lemma decode_two (q r : N) (tail : bytes) :
  (2 <= q < 32)%N -> (r < 64)%N ->
  utf8_decode_replace (byte_of_N (0xC0 + q) :: byte_of_N (0x80 + r) :: tail)
  = (q * 64 + r)%N :: utf8_decode_replace tail.
Proof.
  intros. decode_step. rewrite low6_continuation by lia. f_equal. lia.
Qed.

Lemma decode_three (d2 d1 d0 : N) (tail : bytes) :
  (d2 < 16)%N -> (d1 < 64)%N -> (d0 < 64)%N ->
  (d2 = 0 -> 32 <= d1)%N -> (d2 = 13 -> d1 < 32)%N ->
  utf8_decode_replace
    (byte_of_N (0xE0 + d2) :: byte_of_N (0x80 + d1) :: byte_of_N (0x80 + d0)
       :: tail)
  = (d2 * 4096 + d1 * 64 + d0)%N :: utf8_decode_replace tail.
Proof.
  intros. decode_step; rewrite !low6_continuation by lia; f_equal; lia.
Qed.

Lemma decode_four (d3 d2 d1 d0 : N) (tail : bytes) :
  (d3 < 5)%N -> (d2 < 64)%N -> (d1 < 64)%N -> (d0 < 64)%N ->
  (d3 = 0 -> 16 <= d2)%N -> (d3 = 4 -> d2 < 16)%N ->
  utf8_decode_replace
    (byte_of_N (0xF0 + d3) :: byte_of_N (0x80 + d2) :: byte_of_N (0x80 + d1)
       :: byte_of_N (0x80 + d0) :: tail)
  = (d3 * 262144 + d2 * 4096 + d1 * 64 + d0)%N :: utf8_decode_replace tail.
Proof.
  intros. decode_step; rewrite !low6_continuation by lia; f_equal; lia.
Qed.

Lemma Some_eq {A : Type} (x y : A) : Some x = Some y -> x = y.
Proof. congruence. Qed.

Lemma utf8_decode_char (c : N) (bc tail : bytes) :
  utf8_char c = Some bc ->
  utf8_decode_replace (bc ++ tail) = c :: utf8_decode_replace tail.
Proof.
  unfold utf8_char, is_surrogate.
  destruct (N.ltb_spec c 0x80) as [H1|H1].
  { intros E. apply Some_eq in E. subst bc. now apply decode_one. }
  destruct (N.ltb_spec c 0x800) as [H2|H2].
  { intros E. apply Some_eq in E. subst bc. cbv [app].
    rewrite decode_two; [f_equal|..]; euclid. }
  destruct (N.leb_spec 0xD800 c) as [H3|H3];
    destruct (N.leb_spec c 0xDFFF) as [H4|H4]; cbn [andb];
      try discriminate.
  all: destruct (N.ltb_spec c 0x10000) as [H5|H5]; try lia.
  all: try (intros E; apply Some_eq in E; subst bc; cbv [app];
            rewrite decode_three; [f_equal|..]; euclid).
  all: destruct (N.ltb_spec c 0x110000) as [H6|H6]; try discriminate.
  all: intros E; apply Some_eq in E; subst bc; cbv [app];
    rewrite decode_four; [f_equal|..]; euclid.
Qed.

Theorem decode_encode (s : pystr) (b : bytes) :
  encode s = Some b -> utf8_decode_replace b = s.
Proof.
  revert b. induction s as [|c s IH]; intros b.
  - intros [= <-]. reflexivity.
  - cbn [encode]. destruct (utf8_char c) as [bc|] eqn:Hc; [|discriminate].
    destruct (encode s) as [bs|]; [|discriminate].
    intros [= <-]. rewrite (utf8_decode_char _ _ Hc). f_equal. now apply IH.
Qed.

(** ** Supporting lemmas *)

Lemma hmac_digest_rfc2104 (key message : bytes) :
  HMAC.digest (HMAC.new key (Some message)) = hmac_sha1 key message.
Proof.
  unfold HMAC.digest, HMAC.new, HMAC.update, HMAC.ljust, HMAC.translate,
    hmac_sha1, xor_bytes, SHA1.digest, SHA1.update, SHA1.copy, SHA1.new,
    SHA1.block_size.
  cbn [HMAC.outer HMAC.inner SHA1.fed app].
  destruct (64 <? length key)%nat; reflexivity.
Qed.

Lemma sign_unfold (self : t) (message : pystr) :
  _sign self message =
  match sign (access_secret self) message with
  | Some signature => Ret signature
  | None => Raise UnicodeEncodeError
  end.
Proof.
  unfold _sign, sign.
  destruct (encode message) as [m|]; [|reflexivity].
  now rewrite hmac_digest_rfc2104.
Qed.

Lemma text_utf8 (r : Response) :
  text (set_encoding r UTF8) = utf8_decode_replace (content r).
Proof.
  unfold text, set_encoding; cbn [content encoding decode].
  destruct (content r); reflexivity.
Qed.

(** What running the shared per-call procedure does. *)
Lemma run_signed_call (w : World) (s : State) (self : t) (m u : pystr)
      (p : option json) (request : pystr -> bytes -> pystr -> Request) :
  run w (signed_call self m u p request) s =
  let ts := clock w (ticks s) in
  match sign (access_secret self)
             (canonical m u (access_key self) (signature_version self) ts)
  with
  | None => (Raised UnicodeEncodeError, mkState (S (ticks s)) (sent s))
  | Some signature =>
    match text_of (json_depth w) p with
    | inl e => (Raised e, mkState (S (ticks s)) (sent s))
    | inr body_text =>
      let r := request ts signature body_text in
      (match transport w (sent s) r with
       | inl e => Raised e
       | inr response => Returned (utf8_decode_replace (content response))
       end,
       mkState (S (ticks s)) (sent s ++ [r]))
    end
  end.
Proof.
  unfold signed_call, time_str.
  cbn [bind run].
  rewrite sign_unfold.
  destruct (sign _ _) as [signature|]; cbn [bind run ticks sent];
    [|reflexivity].
  assert (Hcall : forall body_text,
             run w (response <- Call (request (clock w (ticks s)) signature
                                              body_text) Ret ;;
                    Ret (text (set_encoding response UTF8)))
                 (mkState (S (ticks s)) (sent s)) =
             (match transport w (sent s)
                      (request (clock w (ticks s)) signature body_text) with
              | inl e => Raised e
              | inr response =>
                Returned (utf8_decode_replace (content response))
              end,
              mkState (S (ticks s))
                      (sent s ++ [request (clock w (ticks s)) signature
                                          body_text]))).
  { intros body_text. cbn [bind run ticks sent].
    destruct (transport w (sent s) _) as [e|response]; cbn [run];
      [reflexivity|].
    now rewrite text_utf8. }
  destruct p as [obj|]; cbn [json_text text_of json_dumps bind run].
  - destruct (dumps (json_depth w) obj) as [e|body_text]; [reflexivity|].
    apply Hcall.
  - apply Hcall.
Qed.

Lemma skipn_length_app {A : Type} (l l' : list A) :
  skipn (length l) (l ++ l') = l'.
Proof. induction l; [reflexivity | assumption]. Qed.

Lemma invoke_signed_call (self : t) (c : console_call) :
  invoke self c =
  signed_call self (verb_name (table_method c)) (table_path c) (payload c)
              (request_of self c).
Proof. destruct c; reflexivity. Qed.

Lemma issued_signed_call (w : World) (s : State) (self : t) (m u : pystr)
      (p : option json) (request : pystr -> bytes -> pystr -> Request) :
  issued w (signed_call self m u p request) s =
  match sign (access_secret self)
             (canonical m u (access_key self) (signature_version self)
                        (clock w (ticks s)))
  with
  | None => []
  | Some signature =>
    match text_of (json_depth w) p with
    | inl _ => []
    | inr body_text => [request (clock w (ticks s)) signature body_text]
    end
  end.
Proof.
  unfold issued. rewrite run_signed_call. cbv zeta.
  destruct (sign _ _); [destruct (text_of _ _)|]; cbn [snd sent];
    try apply skipn_length_app;
    rewrite <- (app_nil_r (sent s)) at 2; apply skipn_length_app.
Qed.

Lemma in_issued_signed_call (w : World) (s : State) (self : t) (m u : pystr)
      (p : option json) (request : pystr -> bytes -> pystr -> Request)
      (r : Request) :
  In r (issued w (signed_call self m u p request) s) ->
  exists signature body_text,
    sign (access_secret self)
         (canonical m u (access_key self) (signature_version self)
                    (clock w (ticks s))) = Some signature
    /\ text_of (json_depth w) p = inr body_text
    /\ r = request (clock w (ticks s)) signature body_text.
Proof.
  rewrite issued_signed_call.
  destruct (sign _ _) as [signature|]; [|intros []].
  destruct (text_of _ _) as [e|body_text]; [intros []|].
  intros [<-|[]]. now exists signature, body_text.
Qed.

(** ** Request signing *)

(** C1. [_sign] is the base64 encoding of HMAC-SHA1, keyed by the secret,
    over the UTF-8 encoding of the message (and raises where the message has
    no UTF-8 encoding); its result depends on the secret and the message
    only; and on the secret [b"abc"] and the message of the example scenario
    both [_sign] and the specification's [sign] give the same 28 bytes. *)
Theorem sign_is_base64_hmac_sha1 :
  (forall (self : t) (message : pystr),
      _sign self message =
      match encode message with
      | Some m => Ret (b64encode (hmac_sha1 (access_secret self) m))
      | None => Raise UnicodeEncodeError
      end)
  /\ (forall (secret : bytes) (message key1 key2 host1 host2 v1 v2 : pystr),
         _sign (mk key1 secret host1 v1) message =
         _sign (mk key2 secret host2 v2) message)
  /\ (let message :=
        lit "GET" ++ nl ++ lit "/v1/projects" ++ nl ++ lit "K1" ++ nl
          ++ lit "1" ++ nl ++ lit "1000.0" in
      _sign (__init__ (lit "K1") (blit "abc")) message =
      Ret (blit "8S69fcB2EildD0mQCKRZbKY9ank=")
      /\ sign (blit "abc") message = Some (blit "8S69fcB2EildD0mQCKRZbKY9ank=")
      /\ option_map (fun m => b64encode (hmac_sha1 (blit "abc") m))
                    (encode message)
         = Some (blit "8S69fcB2EildD0mQCKRZbKY9ank=")).
Proof.
  split; [|split].
  - intros self message. rewrite sign_unfold. unfold sign.
    destruct (encode message); reflexivity.
  - intros. rewrite !sign_unfold. reflexivity.
  - cbv zeta. split; [|split].
    + rewrite sign_unfold. vm_compute. reflexivity.
    + vm_compute. reflexivity.
    + vm_compute. reflexivity.
Qed.

(** C2. Every signed console operation reads the clock once, signs exactly
    the canonical message built from the table's method and path, the access
    key, the signature version and that clock reading, serialises its JSON
    payload where it has one, and issues one request whose [timestamp]
    header is the same clock reading and whose [signature] header is the
    signature just computed.  When [json.dumps] raises, which it does after
    the signing, no request is issued. *)
Theorem signed_string_is_canonical (self : t) (c : console_call) :
  exists request : pystr -> bytes -> pystr -> Request,
    invoke self c =
    (timestamp <- time_str ;;
     signature <-
       _sign self
         (join nl [verb_name (table_method c); table_path c; access_key self;
                   signature_version self; timestamp]) ;;
     body_text <- json_text (payload c) ;;
     response <- Call (request timestamp signature body_text) Ret ;;
     Ret (text (set_encoding response UTF8)))
    /\ (forall (timestamp : pystr) (signature : bytes) (body_text : pystr),
           headers (request timestamp signature body_text) =
           Some [(lit "access-key", VStr (access_key self));
                 (lit "signature-version", VStr (signature_version self));
                 (lit "signature", VBytes signature);
                 (lit "timestamp", VStr timestamp)])
    /\ (forall (w : World) (s : State),
           let timestamp := clock w (ticks s) in
           issued w (invoke self c) s =
           match sign (access_secret self)
                      (verb_name (table_method c) ++ nl ++ table_path c
                         ++ nl ++ access_key self ++ nl
                         ++ signature_version self ++ nl ++ timestamp)
           with
           | Some signature =>
             match text_of (json_depth w) (payload c) with
             | inr body_text => [request timestamp signature body_text]
             | inl _ => []
             end
           | None => []
           end)
    /\ payload c =
       match c with
       | AddProject _ _ buckets _ _ _ | UpdateProject _ buckets =>
         Some (JList match buckets with
                     | Some given => given
                     | None =>
                       [JDict [(lit "name", JStr (lit "ACRCloud Music"))]]
                     end)
       | _ => None
       end.
Proof.
  exists (request_of self c). split; [|split; [|split]].
  - apply invoke_signed_call.
  - reflexivity.
  - intros w s. cbv zeta. rewrite invoke_signed_call, issued_signed_call.
    destruct (sign _ _); [destruct (text_of _ _)|]; reflexivity.
  - destruct c; reflexivity.
Qed.

(** ** The method signed and the method issued *)

(** For every operation but [get_all_monitors], the request is issued with
    the method that was signed. *)
Lemma issued_method_is_signed_method (self : t) (c : console_call) :
  (forall project_name, c <> GetAllMonitors project_name) ->
  exists request : pystr -> bytes -> pystr -> Request,
    invoke self c =
    signed_call self (verb_name (table_method c)) (table_path c) (payload c)
                request
    /\ forall ts signature body_text,
        method (request ts signature body_text) = table_method c.
Proof.
  intros Hc. exists (request_of self c). split.
  - apply invoke_signed_call.
  - intros ts signature body_text. destruct c; try reflexivity.
    now contradiction (Hc project_name).
Qed.

(** C3. [get_all_monitors] signs a canonical message whose method field is
    GET and then issues its single call with [requests.put]: the method of
    the request issued is PUT, not the signed GET.  The second part runs the
    call for the console [("K1", b"abc")] and the project ["p"]. *)
Theorem get_all_monitors_signs_GET_issues_PUT :
  (forall (self : t) (project_name : pystr),
      get_all_monitors self project_name =
      (timestamp <- time_str ;;
       signature <-
         _sign self
           (join nl [lit "GET"; lit "/v1/monitor-streams"; access_key self;
                     signature_version self; timestamp]) ;;
       response <-
         Call (mkRequest PUT
                 (lit "https://" ++ host self ++ lit "/v1/monitor-streams")
                 (Some [(lit "project_name", VStr project_name)])
                 (Some (_headers self signature timestamp)) true) Ret ;;
       Ret (text (set_encoding response UTF8))))
  /\ (exists signature : bytes,
         sign (blit "abc")
              (lit "GET" ++ nl ++ lit "/v1/monitor-streams" ++ nl ++ lit "K1"
                 ++ nl ++ lit "1" ++ nl ++ lit "1000.0") = Some signature
         /\ issued world0 (get_all_monitors console0 (lit "p")) state0 =
            [mkRequest PUT (lit "https://api.acrcloud.com/v1/monitor-streams")
               (Some [(lit "project_name", VStr (lit "p"))])
               (Some [(lit "access-key", VStr (lit "K1"));
                      (lit "signature-version", VStr (lit "1"));
                      (lit "signature", VBytes signature);
                      (lit "timestamp", VStr (lit "1000.0"))]) true])
  /\ map method (issued world0 (get_all_monitors console0 (lit "p")) state0)
     = [PUT].
Proof.
  split; [|split].
  - reflexivity.
  - eexists. split; vm_compute; reflexivity.
  - vm_compute. reflexivity.
Qed.

(** ** Defaults *)

(** C4, as the claim states it, fails: the [buckets] field that
    [add_project] sends by default is not the text without blanks. *)
Lemma default_buckets_text_is_not_compact :
  let compact :=
    lit "[{" ++ dq ++ lit "name" ++ dq ++ lit ":" ++ dq
      ++ lit "ACRCloud Music" ++ dq ++ lit "}]" in
  ~ (forall r : Request,
        In r (issued world0
                (add_project console0 (lit "P") None None None None None)
                state0) ->
        field (lit "buckets") (data r) = Some (VStr compact)).
Proof.
  intros compact H.
  assert (Hin : exists r,
             In r (issued world0
                     (add_project console0 (lit "P") None None None None None)
                     state0)
             /\ field (lit "buckets") (data r) = Some (VStr default_buckets)).
  { eexists. split; [vm_compute; left; reflexivity|]. vm_compute. reflexivity. }
  destruct Hin as [r [Hr Hb]]. specialize (H r Hr).
  rewrite Hb in H. vm_compute in H. discriminate H.
Qed.

(** C4, amended. Whatever the other arguments are, the request that
    [add_project] sends carries type "BM-ACRC", audio_type 2, region
    "ap-southeast-1" and the empty external_id for each of these that is
    omitted
    and, when the bucket list is omitted, as [buckets] the text that
    [json.dumps] gives for the default list, which has a blank after the
    colon; the request that [add_monitor] sends carries realtime 1, record 0
    and region "ap-southeast-1" for each of these that is omitted.
    [add_project] sends its request when the signing and [json.dumps]
    succeed, [add_monitor] when the signing does. *)
Theorem defaults_when_omitted (self : t) (w : World) (s : State) :
  (forall (project_name : pystr) (type_ : option pystr)
          (buckets : option (list json)) (audio_type : option Z)
          (external_id region : option pystr),
      issued w (add_project self project_name type_ buckets audio_type
                            external_id region) s =
      match sign (access_secret self)
                 (canonical (lit "POST") (lit "/v1/projects")
                            (access_key self) (signature_version self)
                            (clock w (ticks s)))
      with
      | None => []
      | Some signature =>
        match dumps (json_depth w)
                    (JList match buckets with
                           | Some given => given
                           | None =>
                             [JDict [(lit "name",
                                      JStr (lit "ACRCloud Music"))]]
                           end)
        with
        | inl _ => []
        | inr buckets_text =>
          [mkRequest POST (lit "https://" ++ host self ++ lit "/v1/projects")
             (Some [(lit "name", VStr project_name);
                    (lit "region",
                     VStr match region with
                          | Some given => given
                          | None => lit "ap-southeast-1"
                          end);
                    (lit "type",
                     VStr match type_ with
                          | Some given => given
                          | None => lit "BM-ACRC"
                          end);
                    (lit "buckets", VStr buckets_text);
                    (lit "audio_type",
                     VInt match audio_type with
                          | Some given => given
                          | None => 2
                          end);
                    (lit "external_id",
                     VStr match external_id with
                          | Some given => given
                          | None => lit ""
                          end)])
             (Some (signed_headers self signature (clock w (ticks s))))
             true]
        end
      end)
  /\ (forall depth : nat,
         dumps depth (JList [JDict [(lit "name", JStr (lit "ACRCloud Music"))]])
         = match depth with
           | S (S _) =>
             inr (lit "[{" ++ dq ++ lit "name" ++ dq ++ lit ": " ++ dq
                    ++ lit "ACRCloud Music" ++ dq ++ lit "}]")
           | _ => inl RecursionError
           end)
  /\ (forall (project_name stream_name stream_url : pystr)
             (region : option pystr) (realtime record : option Z),
         issued w (add_monitor self project_name stream_name stream_url
                               region realtime record) s =
         match sign (access_secret self)
                    (canonical (lit "POST") (lit "/v1/monitor-streams")
                               (access_key self) (signature_version self)
                               (clock w (ticks s)))
         with
         | None => []
         | Some signature =>
           [mkRequest POST
              (lit "https://" ++ host self ++ lit "/v1/monitor-streams")
              (Some [(lit "project_name", VStr project_name);
                     (lit "stream_name", VStr stream_name);
                     (lit "url", VStr stream_url);
                     (lit "region",
                      VStr match region with
                           | Some given => given
                           | None => lit "ap-southeast-1"
                           end);
                     (lit "realtime",
                      VInt match realtime with
                           | Some given => given
                           | None => 1
                           end);
                     (lit "record",
                      VInt match record with
                           | Some given => given
                           | None => 0
                           end)])
              (Some (signed_headers self signature (clock w (ticks s)))) true]
         end).
Proof.
  split; [|split].
  - intros project_name type_ buckets audio_type external_id region.
    change (add_project self project_name type_ buckets audio_type
                        external_id region)
      with (invoke self (AddProject project_name type_ buckets audio_type
                                    external_id region)).
    rewrite invoke_signed_call, issued_signed_call.
    destruct (sign _ _) as [signature|]; [|reflexivity].
    cbn [payload text_of bucket_list].
    destruct (dumps (json_depth w) _) as [e|buckets_text]; reflexivity.
  - intros [|[|depth]]; reflexivity.
  - intros project_name stream_name stream_url region realtime record.
    change (add_monitor self project_name stream_name stream_url
                        region realtime record)
      with (invoke self (AddMonitor project_name stream_name stream_url
                                    region realtime record)).
    rewrite invoke_signed_call, issued_signed_call.
    destruct (sign _ _) as [signature|]; reflexivity.
Qed.

(** ** Convenience calls *)

(** C5. [pause_monitor] and [restart_monitor] are [action_monitor] with the
    action fixed: the same program, hence the same requests and the same
    returned value in every world.  The request of [action_monitor] is a PUT
    to [/v1/monitor-streams/{stream_id}/{action}] without a body; between
    two calls only the [signature] and [timestamp] headers can differ, and
    they do not when the clock reads the same. *)
Theorem pause_restart_are_action_monitor (self : t) (stream_id : pystr) :
  pause_monitor self stream_id = action_monitor self stream_id (lit "pause")
  /\ restart_monitor self stream_id =
     action_monitor self stream_id (lit "restart")
  /\ (forall (w : World) (s : State),
         run w (pause_monitor self stream_id) s =
         run w (action_monitor self stream_id (lit "pause")) s
         /\ run w (restart_monitor self stream_id) s =
            run w (action_monitor self stream_id (lit "restart")) s)
  /\ (forall (action : pystr) (w : World) (s : State),
         issued w (action_monitor self stream_id action) s =
         match sign (access_secret self)
                    (canonical (lit "PUT")
                       (lit "/v1/monitor-streams/" ++ stream_id ++ lit "/"
                          ++ action)
                       (access_key self) (signature_version self)
                       (clock w (ticks s)))
         with
         | None => []
         | Some signature =>
           [mkRequest PUT
              (lit "https://" ++ host self ++ lit "/v1/monitor-streams/"
                 ++ stream_id ++ lit "/" ++ action)
              None
              (Some [(lit "access-key", VStr (access_key self));
                     (lit "signature-version",
                      VStr (signature_version self));
                     (lit "signature", VBytes signature);
                     (lit "timestamp", VStr (clock w (ticks s)))]) true]
         end)
  /\ (forall (w1 w2 : World) (s1 s2 : State) (r1 r2 : Request),
         In r1 (issued w1 (pause_monitor self stream_id) s1) ->
         In r2 (issued w2 (action_monitor self stream_id (lit "pause")) s2) ->
         method r1 = PUT /\ method r2 = PUT
         /\ url r1 = lit "https://" ++ host self ++ lit "/v1/monitor-streams/"
                       ++ stream_id ++ lit "/pause"
         /\ url r2 = url r1 /\ data r2 = data r1 /\ verify r2 = verify r1
         /\ field (lit "access-key") (headers r2) =
            field (lit "access-key") (headers r1)
         /\ field (lit "signature-version") (headers r2) =
            field (lit "signature-version") (headers r1)
         /\ (clock w1 (ticks s1) = clock w2 (ticks s2) -> r2 = r1)).
Proof.
  split; [reflexivity|]. split; [reflexivity|].
  split; [intros w s; split; reflexivity|].
  split.
  - intros action w s.
    change (action_monitor self stream_id action)
      with (invoke self (ActionMonitor stream_id action)).
    rewrite invoke_signed_call, issued_signed_call. reflexivity.
  - intros w1 w2 s1 s2 r1 r2 H1 H2.
    change (pause_monitor self stream_id)
      with (invoke self (ActionMonitor stream_id (lit "pause"))) in H1.
    change (action_monitor self stream_id (lit "pause"))
      with (invoke self (ActionMonitor stream_id (lit "pause"))) in H2.
    rewrite invoke_signed_call in H1, H2.
    apply in_issued_signed_call in H1 as (sig1 & txt1 & E1 & _ & ->).
    apply in_issued_signed_call in H2 as (sig2 & txt2 & E2 & _ & ->).
    repeat (split; [reflexivity|]).
    intros Ht. rewrite Ht in E1. rewrite E1 in E2.
    injection E2 as <-. now rewrite Ht.
Qed.

Lemma pause_restart_are_action_monitor_witness :
  exists r1 r2 : Request,
    In r1 (issued world0 (pause_monitor console0 (lit "11396")) state0)
    /\ In r2 (issued world404
                (action_monitor console0 (lit "11396") (lit "pause"))
                (mkState 7 []))
    /\ method r1 = PUT /\ method r2 = PUT
    /\ url r1 = lit "https://api.acrcloud.com/v1/monitor-streams/11396/pause"
    /\ url r2 = url r1 /\ r2 = r1.
Proof.
  destruct (pause_restart_are_action_monitor console0 (lit "11396"))
    as (_ & _ & _ & _ & H).
  eexists. eexists.
  assert (H1 : In ?[r1] (issued world0 (pause_monitor console0 (lit "11396"))
                                state0))
    by (vm_compute; left; reflexivity).
  assert (H2 : In ?[r2] (issued world404
                           (action_monitor console0 (lit "11396")
                                           (lit "pause"))
                           (mkState 7 [])))
    by (vm_compute; left; reflexivity).
  destruct (H world0 world404 state0 (mkState 7 []) _ _ H1 H2)
    as (M1 & M2 & U1 & U2 & _ & _ & _ & _ & E).
  split; [exact H1|]. split; [exact H2|].
  split; [exact M1|]. split; [exact M2|].
  split; [exact U1|]. split; [exact U2|].
  apply E. reflexivity.
Defined.

(** ** Retrieval of results *)

Import ACRCloudStreamMonitor.

(** One unsigned GET whose text is returned. *)
Lemma run_get_text (w : World) (s : State) (requrl : pystr) :
  run w (response <- requests.get requrl None ;;
         Ret (text (set_encoding response UTF8))) s =
  get_text w s requrl.
Proof.
  unfold requests.get, get_text. cbn [bind run].
  destruct (transport w (sent s) _) as [e|response]; cbn [run];
    [reflexivity|].
  now rewrite text_utf8.
Qed.

Lemma fetch_url (self : ACRCloudStreamMonitor.t) (r : retrieval) :
  fetch self r =
  if limit_fits r then
    (response <-
       requests.get (results_url self ++ query_suffix (extra_params r))
                    None ;;
     Ret (text (set_encoding response UTF8)))
  else Raise ValueError.
Proof.
  destruct r as [| |limit|date|begin_time end_time];
    unfold fetch, last_results, current_results, multiple_last_results,
      day_results, period_results, results_url, query_suffix, extra_params,
      limit_fits, printable_int, str_of_int;
    try destruct (Z.abs limit <? 10 ^ int_max_str_digits)%Z;
    cbn [flat_map fst snd lift bind]; rewrite ?app_nil_r, <- ?app_assoc;
    reflexivity.
Qed.

Lemma run_fetch (self : ACRCloudStreamMonitor.t) (r : retrieval)
      (w : World) (s : State) :
  run w (fetch self r) s =
  if limit_fits r
  then get_text w s (results_url self ++ query_suffix (extra_params r))
  else (Raised ValueError, s).
Proof.
  rewrite fetch_url. destruct (limit_fits r); [apply run_get_text|].
  reflexivity.
Qed.

(** C6. [period_results] without [end_time] is [period_results] with the
    empty string: one program, and the URL requested ends in [&end_time=]. *)
Theorem period_results_default_end_time
        (self : ACRCloudStreamMonitor.t) (begin_time : pystr) :
  period_results self begin_time None =
  period_results self begin_time (Some (lit ""))
  /\ (forall (w : World) (s : State),
         run w (period_results self begin_time None) s =
         run w (period_results self begin_time (Some (lit ""))) s)
  /\ (forall (w : World) (s : State),
         issued w (period_results self begin_time None) s =
         [mkRequest GET
            (lit "https://api.acrcloud.com/v1/monitor-streams/"
               ++ stream_id self ++ lit "/results?access_key="
               ++ ACRCloudStreamMonitor.access_key self
               ++ lit "&begin_time=" ++ begin_time ++ lit "&end_time=")
            None None true]).
Proof.
  split; [reflexivity|]. split; [reflexivity|].
  intros w s. unfold issued, period_results.
  rewrite run_get_text. unfold get_text. cbn [snd sent arg].
  rewrite skipn_length_app. reflexivity.
Qed.

Lemma str_of_int_long : str_of_int (10 ^ 4300) = inl ValueError.
Proof.
  unfold str_of_int, int_max_str_digits.
  rewrite Z.abs_eq by (apply Z.pow_nonneg; discriminate).
  now rewrite Z.ltb_irrefl.
Qed.

Lemma multiple_last_results_long (self : ACRCloudStreamMonitor.t)
      (w : World) (s : State) :
  run w (multiple_last_results self (10 ^ 4300)) s = (Raised ValueError, s).
Proof.
  unfold multiple_last_results. rewrite str_of_int_long. reflexivity.
Qed.

Lemma issued_multiple_last_results_long (self : ACRCloudStreamMonitor.t)
      (w : World) (s : State) :
  issued w (multiple_last_results self (10 ^ 4300)) s = [].
Proof.
  unfold issued. rewrite multiple_last_results_long. cbn [snd].
  apply skipn_all.
Qed.

(** C7, as the claim states it, fails: for a limit of 4301 digits
    [multiple_last_results] issues no GET. *)
Lemma multiple_last_results_long_limit_not_issued :
  ~ (forall limit : Z,
        exists r : Request,
          issued world0 (multiple_last_results monitor0 limit) state0 = [r]).
Proof.
  intros H. destruct (H (10 ^ 4300)%Z) as [r Hr].
  rewrite issued_multiple_last_results_long in Hr. discriminate Hr.
Qed.

(** C7, amended. Each retrieval operation other than [month_results] issues
    one GET, without headers or body, to the results URL followed by its
    variant's extra query parameters, and returns the body decoded as UTF-8
    text (or raises what the transport raised); [multiple_last_results]
    does so for a limit of at most 4300 digits, and for a longer one it
    raises [ValueError] and issues nothing. *)
Theorem retrieval_requests (self : ACRCloudStreamMonitor.t)
        (w : World) (s : State) :
  let base :=
    lit "https://api.acrcloud.com/v1/monitor-streams/" ++ stream_id self
      ++ lit "/results?access_key=" ++ ACRCloudStreamMonitor.access_key self in
  let single_get (requrl : pystr) : Outcome pystr * State :=
    (match transport w (sent s) (mkRequest GET requrl None None true) with
     | inl e => Raised e
     | inr response => Returned (utf8_decode_replace (content response))
     end,
     mkState (ticks s) (sent s ++ [mkRequest GET requrl None None true])) in
  run w (last_results self) s = single_get base
  /\ run w (current_results self) s = single_get (base ++ lit "&type=current")
  /\ (forall limit : Z,
         run w (multiple_last_results self limit) s =
         if (Z.abs limit <? 10 ^ 4300)%Z
         then single_get (base ++ lit "&limit=" ++ decimal limit)
         else (Raised ValueError, s))
  /\ (forall date : pystr,
         run w (day_results self date) s =
         single_get (base ++ lit "&date=" ++ date))
  /\ (forall (begin_time : pystr) (end_time : option pystr),
         run w (period_results self begin_time end_time) s =
         single_get (base ++ lit "&begin_time=" ++ begin_time
                       ++ lit "&end_time="
                       ++ match end_time with
                          | Some given => given
                          | None => lit ""
                          end))
  /\ (forall r : retrieval,
         run w (fetch self r) s =
         if match r with
            | MultipleLastResults limit => (Z.abs limit <? 10 ^ 4300)%Z
            | _ => true
            end
         then single_get (base ++ query_suffix (extra_params r))
         else (Raised ValueError, s)).
Proof.
  cbv zeta.
  pose proof (run_fetch self) as H.
  split; [|split; [|split; [|split; [|split]]]].
  - rewrite (H LastResults w s : run w (last_results self) s = _).
    cbn [limit_fits extra_params query_suffix flat_map].
    unfold get_text, results_url. rewrite ?app_nil_r, <- ?app_assoc.
    reflexivity.
  - rewrite (H CurrentResults w s : run w (current_results self) s = _).
    cbn [limit_fits extra_params query_suffix flat_map fst snd].
    unfold get_text, results_url. rewrite ?app_nil_r, <- ?app_assoc.
    reflexivity.
  - intros limit.
    rewrite (H (MultipleLastResults limit) w s
             : run w (multiple_last_results self limit) s = _).
    cbn [limit_fits extra_params query_suffix flat_map fst snd].
    unfold printable_int, get_text, results_url.
    rewrite ?app_nil_r, <- ?app_assoc. reflexivity.
  - intros date.
    rewrite (H (DayResults date) w s : run w (day_results self date) s = _).
    cbn [limit_fits extra_params query_suffix flat_map fst snd].
    unfold get_text, results_url. rewrite ?app_nil_r, <- ?app_assoc.
    reflexivity.
  - intros begin_time end_time.
    rewrite (H (PeriodResults begin_time end_time) w s
             : run w (period_results self begin_time end_time) s = _).
    cbn [limit_fits extra_params query_suffix flat_map fst snd].
    unfold get_text, results_url. rewrite ?app_nil_r, <- ?app_assoc.
    reflexivity.
  - intros r. rewrite H. unfold get_text, results_url.
    destruct r; reflexivity.
Qed.

(** C8. [month_results] issues one GET to the archive host and returns the
    response object itself: its content is the bytes the server sent, with
    no text decoding.  The second part is a body that is not UTF-8, which
    comes back byte for byte. *)
Theorem month_results_archive (self : ACRCloudStreamMonitor.t)
        (month : pystr) (w : World) (s : State) :
  let request :=
    mkRequest GET
      (lit "https://monitoring-result.acrcloud.com/"
         ++ ACRCloudStreamMonitor.access_key self ++ lit "/"
         ++ stream_id self ++ lit "/" ++ month ++ lit ".zip")
      None None true in
  run w (month_results self month) s =
  (match transport w (sent s) request with
   | inl e => Raised e
   | inr response => Returned response
   end,
   mkState (ticks s) (sent s ++ [request]))
  /\ (let archive := [x50; x4b; x03; x04; xff; xfe] in
      let server :=
        mkWorld (fun _ => lit "1000.0")
                (fun _ _ => inr (mkResponse 200 archive None UTF8)) 100 in
      option_map content
        (match outcome server (month_results self month) state0 with
         | Returned response => Some response
         | Raised _ => None
         end) = Some archive
      /\ map Byte.to_N archive <> utf8_decode_replace archive).
Proof.
  cbv zeta. split.
  - unfold month_results, requests.get. cbn [bind run].
    destruct (transport w (sent s) _); reflexivity.
  - split; [reflexivity|]. vm_compute. discriminate.
Qed.

(** ** Inputs are not validated *)

Lemma utf8_char_defined (c : N) :
  ((c <? 0x110000)%N && negb (is_surrogate c)) =
  match utf8_char c with Some _ => true | None => false end.
Proof.
  unfold utf8_char, is_surrogate.
  repeat match goal with
         | |- context [(?a <? ?b)%N] => destruct (N.ltb_spec a b)
         | |- context [(?a <=? ?b)%N] => destruct (N.leb_spec a b)
         end; cbn; try reflexivity; lia.
Qed.

Lemma encode_defined (s : pystr) :
  encodable s = match encode s with Some _ => true | None => false end.
Proof.
  induction s as [|c s IH]; [reflexivity|].
  cbn [encodable forallb encode]. fold (encodable s).
  rewrite IH, utf8_char_defined.
  destruct (utf8_char c), (encode s); reflexivity.
Qed.

Lemma encodable_app (a b : pystr) :
  encodable (a ++ b) = encodable a && encodable b.
Proof. apply forallb_app. Qed.

Lemma sign_defined (secret : bytes) (message : pystr) :
  encodable message = true -> exists signature, sign secret message = Some signature.
Proof.
  rewrite encode_defined. unfold sign.
  destruct (encode message) as [m|]; [|discriminate]. eauto.
Qed.

Lemma sign_undefined (secret : bytes) (message : pystr) :
  encodable message = false -> sign secret message = None.
Proof.
  rewrite encode_defined. unfold sign.
  destruct (encode message) as [m|]; [discriminate|]. reflexivity.
Qed.

(** C9, as the claim states it, fails: an action holding a lone surrogate
    is a Python string for which no request is issued, and a limit of 4301
    digits is an integer for which no request is issued. *)
Lemma action_monitor_lone_surrogate_not_issued :
  ~ (forall action : pystr,
        exists r : Request,
          issued world0 (action_monitor console0 (lit "11396") action) state0
          = [r]
          /\ url r =
             lit "https://api.acrcloud.com/v1/monitor-streams/11396/"
               ++ action)
  /\ ~ (forall limit : Z,
           exists r : Request,
             issued world0 (multiple_last_results monitor0 limit) state0
             = [r]).
Proof.
  split.
  - intros H. destruct (H [0xD800%N]) as [r [Hr _]].
    vm_compute in Hr. discriminate Hr.
  - intros H. destruct (H (10 ^ 4300)%Z) as [r Hr].
    rewrite issued_multiple_last_results_long in Hr. discriminate Hr.
Qed.

(** C9, amended. When the access key, the signature version, the stream id,
    the action and the clock reading have a UTF-8 encoding (no lone
    surrogate), [action_monitor] issues its one request with the action as
    it is in the path, whatever the action; when the action has none, it
    raises [UnicodeEncodeError] at signing and issues nothing.
    [multiple_last_results] issues its request for every integer of at
    most 4300 digits, and for a longer one it raises [ValueError] and
    issues nothing.  Where a request is issued, the result is the body as
    UTF-8 text whatever the status code, an exception of the transport is
    raised as it is, and there is one request only. *)
Theorem no_local_validation (self : ACRCloudConsole.t) (stream_id action : pystr)
        (w : World) (s : State)
        (Hkey : encodable (ACRCloudConsole.access_key self) = true)
        (Hversion : encodable (signature_version self) = true)
        (Hid : encodable stream_id = true)
        (Haction : encodable action = true)
        (Hclock : encodable (clock w (ticks s)) = true) :
  (exists signature : bytes,
      sign (access_secret self)
           (canonical (lit "PUT")
                      (lit "/v1/monitor-streams/" ++ stream_id ++ lit "/"
                         ++ action)
                      (ACRCloudConsole.access_key self)
                      (signature_version self) (clock w (ticks s)))
      = Some signature
      /\ let request :=
           mkRequest PUT
             (lit "https://" ++ host self ++ lit "/v1/monitor-streams/"
                ++ stream_id ++ lit "/" ++ action)
             None
             (Some (signed_headers self signature (clock w (ticks s))))
             true in
         run w (action_monitor self stream_id action) s =
         (match transport w (sent s) request with
          | inl e => Raised e
          | inr response => Returned (utf8_decode_replace (content response))
          end,
          mkState (S (ticks s)) (sent s ++ [request])))
  /\ (forall (bad : pystr) (w' : World) (s' : State),
         encodable bad = false ->
         run w' (action_monitor self stream_id bad) s' =
         (Raised UnicodeEncodeError, mkState (S (ticks s')) (sent s')))
  /\ (forall (monitor : ACRCloudStreamMonitor.t) (limit : Z)
             (w' : World) (s' : State),
         let request :=
           mkRequest GET
             (lit "https://api.acrcloud.com/v1/monitor-streams/"
                ++ ACRCloudStreamMonitor.stream_id monitor
                ++ lit "/results?access_key="
                ++ ACRCloudStreamMonitor.access_key monitor
                ++ lit "&limit=" ++ decimal limit)
             None None true in
         run w' (multiple_last_results monitor limit) s' =
         if (Z.abs limit <? 10 ^ 4300)%Z then
           (match transport w' (sent s') request with
            | inl e => Raised e
            | inr response =>
              Returned (utf8_decode_replace (content response))
            end,
            mkState (ticks s') (sent s' ++ [request]))
         else (Raised ValueError, s')).
Proof.
  split; [|split].
  - destruct (sign_defined (access_secret self)
                (canonical (lit "PUT")
                   (lit "/v1/monitor-streams/" ++ stream_id ++ lit "/"
                      ++ action)
                   (ACRCloudConsole.access_key self)
                   (signature_version self) (clock w (ticks s))))
      as [signature Hsig].
    { unfold canonical. rewrite !encodable_app, Hkey, Hversion, Hid, Haction,
        Hclock. reflexivity. }
    exists signature. split; [exact Hsig|]. cbv zeta.
    change (action_monitor self stream_id action)
      with (invoke self (ActionMonitor stream_id action)).
    rewrite invoke_signed_call, run_signed_call. cbv zeta.
    cbn [table_method table_path verb_name]. rewrite Hsig. reflexivity.
  - intros bad w' s' Hbad.
    change (action_monitor self stream_id bad)
      with (invoke self (ActionMonitor stream_id bad)).
    rewrite invoke_signed_call, run_signed_call. cbv zeta.
    rewrite sign_undefined; [reflexivity|].
    cbn [table_method table_path verb_name]. unfold canonical.
    rewrite !encodable_app, Hbad, !andb_false_r. reflexivity.
  - intros monitor limit w' s'. cbv zeta.
    unfold multiple_last_results, str_of_int, int_max_str_digits.
    destruct (Z.abs limit <? 10 ^ 4300)%Z; cbn [lift bind];
      [now rewrite run_get_text | reflexivity].
Qed.

Lemma no_local_validation_witness :
  encodable (lit "stop") = true
  /\ map url (issued world404
                (action_monitor console0 (lit "11396") (lit "stop")) state0)
     = [lit "https://api.acrcloud.com/v1/monitor-streams/11396/stop"]
  /\ outcome world404 (action_monitor console0 (lit "11396") (lit "stop"))
             state0 = Returned (lit "not found")
  /\ outcome world404 (action_monitor console0 (lit "11396") [0xD800%N])
             state0 = Raised UnicodeEncodeError
  /\ outcome world404 (multiple_last_results monitor0 (-5)) state0
     = Returned (lit "not found").
Proof.
  destruct (no_local_validation console0 (lit "11396") (lit "stop")
              world404 state0 eq_refl eq_refl eq_refl eq_refl eq_refl)
    as [[signature [Hsig Hrun]] [Hbad Hlimit]].
  cbv zeta in Hrun, Hlimit. unfold outcome, issued.
  rewrite Hrun, (Hbad [0xD800%N] world404 state0 eq_refl),
    (Hlimit monitor0 (-5)%Z world404 state0).
  repeat split.
Defined.

(** ** Values are interpolated as they are *)

Lemma issued_get_text (w : World) (s : State) (requrl : pystr) :
  issued w (response <- requests.get requrl None ;;
            Ret (text (set_encoding response UTF8))) s =
  [mkRequest GET requrl None None true].
Proof.
  unfold issued. rewrite run_get_text. unfold get_text. cbn [snd sent].
  apply skipn_length_app.
Qed.

Lemma issued_raise {A : Type} (w : World) (s : State) (e : exn) :
  issued w (@Raise A e) s = [].
Proof. unfold issued. cbn [run snd]. apply skipn_all. Qed.

(** C10, as the claim states it, fails on [limit]: Python gives an integer
    of 4301 digits no decimal form, so that [multiple_last_results] builds
    no URL with it. *)
Lemma long_limit_builds_no_url :
  ~ (forall limit : Z,
        map url (issued world0 (multiple_last_results monitor0 limit) state0)
        = [lit "https://api.acrcloud.com/v1/monitor-streams/11396/results?access_key=K1&limit="
             ++ decimal limit]).
Proof.
  intros H. specialize (H (10 ^ 4300)%Z).
  rewrite issued_multiple_last_results_long in H. discriminate H.
Qed.

(** C10, amended. Every console operation is the shared procedure in which
    the message given to [_sign] holds the path of the table, itself a
    concatenation in which the caller's values appear as they are, and in
    which the request carries that signature and has that same path in its
    URL, whatever the values are.  The URL of every retrieval request is
    such a concatenation too, with the decimal form of a [limit] of at most
    4300 digits; a longer [limit] gives no URL.  The last two parts are
    calls whose values hold a slash, a question mark, an ampersand and a
    blank, which reach the path, the query and the signed message
    unchanged. *)
Theorem values_interpolated_verbatim (w : World) (s : State) :
  (forall (self : ACRCloudConsole.t) (c : console_call),
      let signed (timestamp : pystr) :=
        verb_name (table_method c) ++ nl ++ table_path c ++ nl
          ++ ACRCloudConsole.access_key self ++ nl ++ signature_version self
          ++ nl ++ timestamp in
      exists request : pystr -> bytes -> pystr -> Request,
        invoke self c =
        (timestamp <- time_str ;;
         signature <- _sign self (signed timestamp) ;;
         body_text <- json_text (payload c) ;;
         response <- Call (request timestamp signature body_text) Ret ;;
         Ret (text (set_encoding response UTF8)))
        /\ (forall (timestamp : pystr) (signature : bytes)
                   (body_text : pystr),
               url (request timestamp signature body_text) =
               lit "https://" ++ host self ++ table_path c
               /\ headers (request timestamp signature body_text) =
                  Some [(lit "access-key",
                         VStr (ACRCloudConsole.access_key self));
                        (lit "signature-version",
                         VStr (signature_version self));
                        (lit "signature", VBytes signature);
                        (lit "timestamp", VStr timestamp)])
        /\ issued w (invoke self c) s =
           match sign (access_secret self) (signed (clock w (ticks s))) with
           | Some signature =>
             match text_of (json_depth w) (payload c) with
             | inr body_text =>
               [request (clock w (ticks s)) signature body_text]
             | inl _ => []
             end
           | None => []
           end)
  /\ (forall (project_name stream_id action : pystr)
             (buckets : option (list json)),
         table_path (UpdateProject project_name buckets) =
         lit "/v1/projects/" ++ project_name
         /\ table_path (DeleteProject project_name) =
            lit "/v1/projects/" ++ project_name
         /\ table_path (GetProject project_name) =
            lit "/v1/projects/" ++ project_name
         /\ table_path (GetMonitor stream_id) =
            lit "/v1/monitor-streams/" ++ stream_id
         /\ table_path (DeleteMonitor stream_id) =
            lit "/v1/monitor-streams/" ++ stream_id
         /\ table_path (ActionMonitor stream_id action) =
            lit "/v1/monitor-streams/" ++ stream_id ++ lit "/" ++ action)
  /\ (forall (access_key stream_id date month : pystr) (limit : Z),
         let self := ACRCloudStreamMonitor.__init__ access_key stream_id in
         map url (issued w (last_results self) s) =
         [lit "https://api.acrcloud.com/v1/monitor-streams/" ++ stream_id
            ++ lit "/results?access_key=" ++ access_key]
         /\ map url (issued w (multiple_last_results self limit) s) =
            (if (Z.abs limit <? 10 ^ 4300)%Z then
               [lit "https://api.acrcloud.com/v1/monitor-streams/"
                  ++ stream_id ++ lit "/results?access_key=" ++ access_key
                  ++ lit "&limit=" ++ decimal limit]
             else [])
         /\ map url (issued w (day_results self date) s) =
            [lit "https://api.acrcloud.com/v1/monitor-streams/" ++ stream_id
               ++ lit "/results?access_key=" ++ access_key
               ++ lit "&date=" ++ date]
         /\ map url (issued w (month_results self month) s) =
            [lit "https://monitoring-result.acrcloud.com/" ++ access_key
               ++ lit "/" ++ stream_id ++ lit "/" ++ month ++ lit ".zip"])
  /\ map url
       (issued world0
          (day_results
             (ACRCloudStreamMonitor.__init__ (lit "K&x=1") (lit "1/../2?a b"))
             (lit "2020 01/01")) state0) =
     [lit "https://api.acrcloud.com/v1/monitor-streams/1/../2?a b/results?access_key=K&x=1&date=2020 01/01"]
  /\ (exists signature : bytes,
         sign (blit "abc")
              (lit "PUT" ++ nl ++ lit "/v1/monitor-streams/1/../2?a b/x&y z"
                 ++ nl ++ lit "K1" ++ nl ++ lit "1" ++ nl ++ lit "1000.0")
         = Some signature
         /\ issued world0
              (action_monitor console0 (lit "1/../2?a b") (lit "x&y z"))
              state0 =
            [mkRequest PUT
               (lit "https://api.acrcloud.com/v1/monitor-streams/1/../2?a b/x&y z")
               None
               (Some (signed_headers console0 signature (lit "1000.0")))
               true]).
Proof.
  split; [|split; [|split; [|split]]].
  - intros self c. cbv zeta. exists (request_of self c).
    split; [apply invoke_signed_call|]. split.
    + intros timestamp signature body_text. split; reflexivity.
    + rewrite invoke_signed_call. apply issued_signed_call.
  - intros. repeat split.
  - intros access_key stream_id date month limit. cbv zeta.
    split; [|split; [|split]].
    + unfold last_results. now rewrite issued_get_text.
    + unfold multiple_last_results, str_of_int, int_max_str_digits.
      destruct (Z.abs limit <? 10 ^ 4300)%Z; cbn [lift bind].
      * now rewrite issued_get_text.
      * unfold issued. cbn [run snd]. now rewrite skipn_all.
    + unfold day_results. now rewrite issued_get_text.
    + unfold issued, month_results, requests.get. cbn [bind run].
      destruct (transport w (sent s) _); cbn [run snd sent];
        rewrite skipn_length_app; reflexivity.
  - vm_compute. reflexivity.
  - eexists. split; vm_compute; reflexivity.
Qed.

(** * Further properties *)

(** ** The shape of a signature *)

Lemma be_bytes_length (n : nat) (x : Z) : length (SHA1.be_bytes n x) = n.
Proof.
  revert x. induction n as [|n IH]; intros x; [reflexivity|].
  cbn [SHA1.be_bytes]. rewrite length_app, IH. cbn [length]. lia.
Qed.

Lemma sha1_length (message : bytes) : length (SHA1.hash message) = 20%nat.
Proof. unfold SHA1.hash. cbv zeta. now rewrite !length_app, !be_bytes_length. Qed.

Lemma hmac_sha1_length (key message : bytes) :
  length (hmac_sha1 key message) = 20%nat.
Proof. unfold hmac_sha1. apply sha1_length. Qed.

Lemma b64encode_length (s : bytes) :
  length (b64encode s) = (4 * ((length s + 2) / 3))%nat.
Proof.
  induction s as [|a|a b|a b c l IH] using list_ind3; try reflexivity.
  cbn [b64encode]. cbv zeta. cbn [length]. rewrite IH.
  replace (S (S (S (length l))) + 2)%nat with (length l + 2 + 1 * 3)%nat
    by lia.
  rewrite Nat.div_add by discriminate. lia.
Qed.

Lemma b64_char_in (i : N) : In (b64_char i) (b64_pad :: b64_alphabet).
Proof.
  unfold b64_char.
  destruct (nth_in_or_default (N.to_nat i) b64_alphabet b64_pad) as [H| ->];
    [right; exact H | left; reflexivity].
Qed.

Lemma b64encode_alphabet (s : bytes) :
  Forall (fun b => In b (b64_pad :: b64_alphabet)) (b64encode s).
Proof.
  induction s as [|a|a b|a b c l IH] using list_ind3; cbn [b64encode];
    cbv zeta;
    repeat (apply Forall_cons;
            [first [apply b64_char_in | left; reflexivity]|]);
    first [apply Forall_nil | exact IH].
Qed.

Lemma b64encode_last_pad (s : bytes) :
  (length s mod 3 <> 0)%nat -> last (b64encode s) x00 = b64_pad.
Proof.
  induction s as [|a|a b|a b c l IH] using list_ind3; intros H.
  - now contradiction H.
  - reflexivity.
  - reflexivity.
  - assert (Hl : (length l mod 3 <> 0)%nat).
    { intros E. apply H. cbn [length].
      replace (S (S (S (length l)))) with (length l + 1 * 3)%nat by lia.
      now rewrite Nat.Div0.mod_add. }
    specialize (IH Hl). cbn [b64encode]. cbv zeta.
    destruct l as [|x l']; [now contradiction Hl|].
    destruct (b64encode (x :: l')) as [|y ys] eqn:E.
    + destruct l' as [|? [|? ?]]; discriminate E.
    + exact IH.
Qed.

Lemma Ret_eq {A : Type} (x y : A) : Ret x = Ret y -> x = y.
Proof.
  intros E.
  exact (f_equal (fun p => match p with Ret a => a | _ => x end) E).
Qed.

(** X1. A signature that [_sign] returns is 28 bytes of the base64
    alphabet, the last one the padding character, and decodes to the 20
    bytes of the HMAC-SHA1 digest of the encoded message. *)
Theorem signature_shape (self : ACRCloudConsole.t) (message : pystr) (signature : bytes) :
  _sign self message = Ret signature ->
  length signature = 28%nat
  /\ last signature x00 = "="%byte
  /\ Forall (fun b => In b (b64_pad :: b64_alphabet)) signature
  /\ exists m digest : bytes,
      encode message = Some m
      /\ digest = hmac_sha1 (access_secret self) m
      /\ length digest = 20%nat
      /\ b64decode signature = Some digest.
Proof.
  rewrite sign_unfold. unfold sign.
  destruct (encode message) as [m|]; [|discriminate].
  intros E. apply Ret_eq in E. subst signature.
  pose proof (hmac_sha1_length (access_secret self) m) as Hlen.
  split; [|split; [|split]].
  - rewrite b64encode_length, Hlen. reflexivity.
  - apply b64encode_last_pad. rewrite Hlen. discriminate.
  - apply b64encode_alphabet.
  - exists m, (hmac_sha1 (access_secret self) m).
    split; [reflexivity|]. split; [reflexivity|].
    split; [exact Hlen | apply b64decode_b64encode].
Qed.

Lemma signature_shape_witness :
  exists signature : bytes,
    _sign console0 (lit "GET") = Ret signature
    /\ length signature = 28%nat
    /\ last signature x00 = "="%byte.
Proof.
  eexists.
  assert (H : _sign console0 (lit "GET") = Ret ?[sig])
    by (rewrite sign_unfold; vm_compute; reflexivity).
  destruct (signature_shape console0 (lit "GET") H) as (H1 & H2 & _).
  split; [exact H|]. split; [exact H1 | exact H2].
Defined.

(** ** Secrets that sign alike *)

(** X2. A secret shorter than the SHA-1 block and the same secret followed
    by a NUL byte give the same signature for every message, and a secret
    longer than the block signs like its own SHA-1 digest. *)
Theorem secrets_that_sign_alike (secret : bytes) (key hostname version : pystr)
        (message : pystr) :
  ((length secret < 64)%nat ->
   _sign (ACRCloudConsole.mk key (secret ++ [x00]) hostname version) message =
   _sign (ACRCloudConsole.mk key secret hostname version) message)
  /\ ((64 < length secret)%nat ->
      _sign (ACRCloudConsole.mk key (SHA1.hash secret) hostname version) message =
      _sign (ACRCloudConsole.mk key secret hostname version) message).
Proof.
  split; intros Hlen; rewrite !sign_unfold; unfold sign;
    cbn [access_secret]; (destruct (encode message) as [m|]; [|reflexivity]);
      do 2 f_equal; unfold hmac_sha1.
  - rewrite length_app. cbn [length].
    destruct (Nat.ltb_spec 64 (length secret + 1)) as [H|H]; [lia|].
    destruct (Nat.ltb_spec 64 (length secret)) as [H'|H']; [lia|].
    cbv zeta. rewrite length_app. cbn [length].
    replace (64 - length secret)%nat with (S (64 - (length secret + 1)))
      by lia.
    cbn [repeat]. now rewrite <- app_assoc.
  - rewrite sha1_length. change (64 <? 20)%nat with false. cbv iota.
    destruct (Nat.ltb_spec 64 (length secret)) as [H|H]; [reflexivity|lia].
Qed.

Lemma secrets_that_sign_alike_witness :
  _sign (ACRCloudConsole.mk (lit "K1") (blit "abc" ++ [x00]) (lit "h") (lit "1")) (lit "GET")
  = _sign (ACRCloudConsole.mk (lit "K1") (blit "abc") (lit "h") (lit "1")) (lit "GET")
  /\ _sign (ACRCloudConsole.mk (lit "K1") (SHA1.hash (repeat x61 65)) (lit "h") (lit "1"))
           (lit "GET")
     = _sign (ACRCloudConsole.mk (lit "K1") (repeat x61 65) (lit "h") (lit "1")) (lit "GET").
Proof.
  destruct (secrets_that_sign_alike (blit "abc") (lit "K1") (lit "h")
              (lit "1") (lit "GET")) as [H1 _].
  destruct (secrets_that_sign_alike (repeat x61 65) (lit "K1") (lit "h")
              (lit "1") (lit "GET")) as [_ H2].
  split; [apply H1 | apply H2]; cbn; lia.
Defined.

(** ** What the signature covers *)

(** X3. The body is not signed: two console calls with the same method and
    path in the table, made at the same clock reading, carry the same
    headers, signature included, whatever their arguments. *)
Theorem body_is_not_signed (self : ACRCloudConsole.t) (c1 c2 : console_call)
        (w : World) (s : State) (r1 r2 : Request) :
  table_method c1 = table_method c2 ->
  table_path c1 = table_path c2 ->
  In r1 (issued w (invoke self c1) s) ->
  In r2 (issued w (invoke self c2) s) ->
  headers r1 = headers r2.
Proof.
  intros Hm Hp H1 H2. rewrite invoke_signed_call in H1, H2.
  apply in_issued_signed_call in H1 as (sig1 & txt1 & E1 & _ & ->).
  apply in_issued_signed_call in H2 as (sig2 & txt2 & E2 & _ & ->).
  rewrite Hm, Hp, E2 in E1. apply Some_eq in E1. subst sig2. reflexivity.
Qed.

Lemma body_is_not_signed_witness :
  exists r1 r2 : Request,
    In r1 (issued world0
             (add_project console0 (lit "A") None None None None None)
             state0)
    /\ In r2 (issued world0
                (add_project console0 (lit "B") (Some (lit "AVR")) (Some [])
                             (Some 1%Z) None (Some (lit "eu-west-1")))
                state0)
    /\ headers r1 = headers r2 /\ data r1 <> data r2.
Proof.
  eexists. eexists.
  assert (H1 : In ?[r1]
                 (issued world0
                    (add_project console0 (lit "A") None None None None None)
                    state0))
    by (vm_compute; left; reflexivity).
  assert (H2 : In ?[r2]
                 (issued world0
                    (add_project console0 (lit "B") (Some (lit "AVR"))
                                 (Some []) (Some 1%Z) None
                                 (Some (lit "eu-west-1")))
                    state0))
    by (vm_compute; left; reflexivity).
  split; [exact H1|]. split; [exact H2|]. split.
  - exact (@body_is_not_signed console0
             (AddProject (lit "A") None None None None None)
             (AddProject (lit "B") (Some (lit "AVR")) (Some []) (Some 1%Z)
                         None (Some (lit "eu-west-1")))
             world0 state0 _ _ eq_refl eq_refl H1 H2).
  - cbn [data]. discriminate.
Defined.

(** X4. Every console operation other than [get_all_monitors] issues its
    request with the table's method, and the signature it sends is the
    signature of a message whose first line is that method. *)
Theorem issued_method_is_the_signed_one (self : ACRCloudConsole.t)
        (c : console_call) (w : World) (s : State) (r : Request) :
  (forall project_name, c <> GetAllMonitors project_name) ->
  In r (issued w (invoke self c) s) ->
  method r = table_method c
  /\ exists signature : bytes,
      sign (access_secret self)
           (verb_name (method r) ++ nl ++ table_path c ++ nl
              ++ ACRCloudConsole.access_key self ++ nl
              ++ signature_version self ++ nl ++ clock w (ticks s))
      = Some signature
      /\ field (lit "signature") (headers r) = Some (VBytes signature).
Proof.
  intros Hc H. rewrite invoke_signed_call in H.
  apply in_issued_signed_call in H as (signature & body_text & E & _ & ->).
  assert (Hm : method (request_of self c (clock w (ticks s)) signature
                                  body_text)
               = table_method c).
  { destruct c; try reflexivity. now contradiction (Hc project_name). }
  split; [exact Hm|]. exists signature. rewrite Hm. split; [exact E|].
  reflexivity.
Qed.

Lemma issued_method_is_the_signed_one_witness :
  exists r : Request,
    In r (issued world0 (update_project console0 (lit "P") None) state0)
    /\ method r = POST.
Proof.
  eexists.
  assert (H : In ?[r] (issued world0 (update_project console0 (lit "P") None)
                              state0))
    by (vm_compute; left; reflexivity).
  split; [exact H|].
  refine (proj1 (@issued_method_is_the_signed_one console0
                   (UpdateProject (lit "P") None) world0 state0 _ _ H)).
  intros project_name. discriminate.
Defined.

Lemma split_at_newline (a a' b b' : pystr) :
  no_newline a = true -> no_newline a' = true ->
  a ++ nl ++ b = a' ++ nl ++ b' -> a = a' /\ b = b'.
Proof.
  revert a'. induction a as [|x a IH]; intros [|x' a'] Ha Ha' E.
  - cbn in E. apply (f_equal (@tl N)) in E. cbn in E. now split.
  - cbn in E, Ha'. injection E as E _. subst x'. discriminate Ha'.
  - cbn in E, Ha. injection E as E _. subst x. discriminate Ha.
  - cbn [app] in E. cbn [no_newline forallb] in Ha, Ha'.
    apply andb_true_iff in Ha as [_ Ha]. apply andb_true_iff in Ha' as [_ Ha'].
    assert (Hx : x = x') by congruence.
    assert (Et : a ++ nl ++ b = a' ++ nl ++ b') by congruence.
    destruct (IH a' Ha Ha' Et) as [-> ->]. now subst.
Qed.

Lemma verb_name_no_newline (v : verb) : no_newline (verb_name v) = true.
Proof. destruct v; reflexivity. Qed.

Lemma verb_name_injective (v v' : verb) : verb_name v = verb_name v' -> v = v'.
Proof. destruct v, v'; intros E; try reflexivity; discriminate E. Qed.

(** X5. When the paths, access keys and signature versions hold no newline,
    the message a console call signs determines the method, the path, the
    access key, the signature version and the timestamp: two calls that sign
    the same message agree on all five. *)
Theorem signed_message_determines_fields
        (self1 self2 : ACRCloudConsole.t) (c1 c2 : console_call)
        (ts1 ts2 : pystr) :
  no_newline (table_path c1) = true -> no_newline (table_path c2) = true ->
  no_newline (ACRCloudConsole.access_key self1) = true ->
  no_newline (ACRCloudConsole.access_key self2) = true ->
  no_newline (signature_version self1) = true ->
  no_newline (signature_version self2) = true ->
  join nl [verb_name (table_method c1); table_path c1;
           ACRCloudConsole.access_key self1; signature_version self1; ts1] =
  join nl [verb_name (table_method c2); table_path c2;
           ACRCloudConsole.access_key self2; signature_version self2; ts2] ->
  table_method c1 = table_method c2 /\ table_path c1 = table_path c2
  /\ ACRCloudConsole.access_key self1 = ACRCloudConsole.access_key self2
  /\ signature_version self1 = signature_version self2 /\ ts1 = ts2.
Proof.
  intros Hp1 Hp2 Hk1 Hk2 Hv1 Hv2 E. cbn [join] in E.
  apply split_at_newline in E as [Em E]; auto using verb_name_no_newline.
  apply split_at_newline in E as [Ep E]; auto.
  apply split_at_newline in E as [Ek E]; auto.
  apply split_at_newline in E as [Ev E]; auto.
  apply verb_name_injective in Em. auto.
Qed.

Lemma signed_message_determines_fields_witness :
  table_method (GetAllMonitors (lit "a")) =
  table_method (GetAllMonitors (lit "b"))
  /\ table_path (GetAllMonitors (lit "a")) =
     table_path (GetAllMonitors (lit "b"))
  /\ lit "1000.0" = lit "1000.0".
Proof.
  destruct (@signed_message_determines_fields console0 console0
              (GetAllMonitors (lit "a")) (GetAllMonitors (lit "b"))
              (lit "1000.0") (lit "1000.0")
              eq_refl eq_refl eq_refl eq_refl eq_refl eq_refl eq_refl)
    as (Hm & Hp & _ & _ & Ht).
  split; [exact Hm|]. split; [exact Hp | exact Ht].
Defined.

(** Without the hypothesis the conclusion fails: a newline in a project name
    moves the boundary between the path and the access key. *)
Example signed_message_ambiguous_with_newline :
  join nl [lit "GET"; table_path (GetProject (lit "p" ++ nl ++ lit "K"));
           lit "Z"; lit "1"; lit "1000.0"] =
  join nl [lit "GET"; table_path (GetProject (lit "p"));
           lit "K" ++ nl ++ lit "Z"; lit "1"; lit "1000.0"].
Proof. reflexivity. Qed.

(** ** Where the requests go *)

Lemma starts_with_app (a b : pystr) : starts_with a (a ++ b) = true.
Proof.
  induction a as [|x a IH]; [reflexivity|].
  cbn [app starts_with]. now rewrite N.eqb_refl, IH.
Qed.

(** X6. Every request of a console built by [__init__] goes to
    [https://api.acrcloud.com/v1/...] with certificate verification on;
    every retrieval request goes to
    [https://api.acrcloud.com/v1/monitor-streams/...] and every archive
    request to [https://monitoring-result.acrcloud.com/...], both with
    verification on and with neither headers nor body. *)
Theorem requests_go_to_https_hosts (w : World) (s : State) (r : Request) :
  (forall (key : pystr) (secret : bytes) (c : console_call),
      In r (issued w (invoke (ACRCloudConsole.__init__ key secret) c) s) ->
      verify r = true
      /\ starts_with (lit "https://api.acrcloud.com/v1/") (url r) = true)
  /\ (forall (self : ACRCloudStreamMonitor.t) (q : retrieval),
         In r (issued w (fetch self q) s) ->
         verify r = true /\ headers r = None /\ data r = None
         /\ starts_with (lit "https://api.acrcloud.com/v1/monitor-streams/")
                        (url r) = true)
  /\ (forall (self : ACRCloudStreamMonitor.t) (month : pystr),
         In r (issued w (month_results self month) s) ->
         verify r = true /\ headers r = None /\ data r = None
         /\ starts_with (lit "https://monitoring-result.acrcloud.com/")
                        (url r) = true).
Proof.
  split; [|split].
  - intros key secret c H. rewrite invoke_signed_call in H.
    apply in_issued_signed_call in H as (signature & body_text & _ & _ & ->).
    split; [reflexivity|]. destruct c; reflexivity.
  - intros self q H. rewrite fetch_url in H.
    destruct (limit_fits q); [|rewrite issued_raise in H; destruct H].
    rewrite issued_get_text in H. destruct H as [<-|[]]. repeat (split; [reflexivity|]).
    cbn [url]. unfold results_url. rewrite <- app_assoc.
    apply starts_with_app.
  - intros self month H.
    assert (E : issued w (month_results self month) s =
                [mkRequest GET
                   (lit "https://monitoring-result.acrcloud.com/"
                      ++ ACRCloudStreamMonitor.access_key self ++ lit "/"
                      ++ stream_id self ++ lit "/" ++ month ++ lit ".zip")
                   None None true]).
    { unfold issued, month_results, requests.get. cbn [bind run].
      destruct (transport w (sent s) _); cbn [run snd sent];
        apply skipn_length_app. }
    rewrite E in H. destruct H as [<-|[]]. repeat (split; [reflexivity|]).
    apply starts_with_app.
Qed.

Lemma requests_go_to_https_hosts_witness :
  exists r : Request,
    In r (issued world0 (day_results monitor0 (lit "20200101")) state0)
    /\ verify r = true /\ headers r = None.
Proof.
  eexists.
  assert (H : In ?[r] (issued world0 (day_results monitor0 (lit "20200101"))
                              state0))
    by (vm_compute; left; reflexivity).
  split; [exact H|].
  pose proof (fun r => proj1 (proj2 (requests_go_to_https_hosts
                                      world0 state0 r))) as Hf.
  destruct (Hf _ monitor0 (DayResults (lit "20200101")) H) as (Hv & Hh & _).
  split; [exact Hv | exact Hh].
Defined.

(** ** The text an operation returns *)

Ltac bool_to_prop :=
  repeat match goal with
         | H : (_ && _) = true |- _ => apply andb_true_iff in H as [? ?]
         | H : (_ || _) = false |- _ => apply orb_false_iff in H as [? ?]
         | H : (_ <? _)%N = true |- _ => apply N.ltb_lt in H
         | H : (_ <? _)%N = false |- _ => apply N.ltb_ge in H
         | H : (_ <=? _)%N = true |- _ => apply N.leb_le in H
         | H : (_ <=? _)%N = false |- _ => apply N.leb_gt in H
         | H : (_ =? _)%N = true |- _ => apply N.eqb_eq in H
         | H : (_ =? _)%N = false |- _ => apply N.eqb_neq in H
         end.

Lemma encodable_cons (c : N) (s : pystr) :
  (c < 0x110000)%N -> (c < 0xD800 \/ 0xDFFF < c)%N -> encodable s = true ->
  encodable (c :: s) = true.
Proof.
  intros H1 H2 Hs. cbn [encodable forallb]. fold (encodable s). rewrite Hs.
  unfold is_surrogate.
  apply andb_true_iff; split; [|reflexivity].
  apply andb_true_iff; split; [now apply N.ltb_lt|].
  apply negb_true_iff, andb_false_iff.
  destruct H2; [left; apply N.leb_gt | right; apply N.leb_gt]; assumption.
Qed.

Ltac leaf :=
  first [ assumption
        | reflexivity
        | apply encodable_cons;
          [ unfold replacement; try lia
          | unfold replacement; try lia
          | assumption ] ].

Ltac split_tests :=
  repeat match goal with
         | |- context [if ?c then _ else _] => destruct c eqn:?
         end; bool_to_prop; leaf; euclid.

Lemma utf8_decode_replace_encodable_upto (n : nat) :
  forall s : bytes,
    (length s <= n)%nat -> encodable (utf8_decode_replace s) = true.
Proof.
  induction n as [|n IH]; intros s Hs.
  - destruct s; [reflexivity | cbn in Hs; lia].
  - destruct s as [|b0 r0]; [reflexivity|]. cbn [length] in Hs.
    cbn [utf8_decode_replace]. cbv zeta. unfold between, low6.
    pose proof (Byte.to_N_bounded b0) as B0.
    assert (D0 : encodable (utf8_decode_replace r0) = true)
      by (apply IH; lia).
    set (d0 := utf8_decode_replace r0) in *. clearbody d0.
    destruct r0 as [|b1 r1].
    { destruct (N.eqb_spec (Byte.to_N b0) 224),
        (N.eqb_spec (Byte.to_N b0) 237), (N.eqb_spec (Byte.to_N b0) 240),
        (N.eqb_spec (Byte.to_N b0) 244); try lia; split_tests. }
    cbn [length] in Hs. pose proof (Byte.to_N_bounded b1) as B1.
    assert (D1 : encodable (utf8_decode_replace r1) = true)
      by (apply IH; lia).
    set (d1 := utf8_decode_replace r1) in *. clearbody d1.
    destruct r1 as [|b2 r2].
    { destruct (N.eqb_spec (Byte.to_N b0) 224),
        (N.eqb_spec (Byte.to_N b0) 237), (N.eqb_spec (Byte.to_N b0) 240),
        (N.eqb_spec (Byte.to_N b0) 244); try lia; split_tests. }
    cbn [length] in Hs. pose proof (Byte.to_N_bounded b2) as B2.
    assert (D2 : encodable (utf8_decode_replace r2) = true)
      by (apply IH; lia).
    set (d2 := utf8_decode_replace r2) in *. clearbody d2.
    destruct r2 as [|b3 r3].
    { destruct (N.eqb_spec (Byte.to_N b0) 224),
        (N.eqb_spec (Byte.to_N b0) 237), (N.eqb_spec (Byte.to_N b0) 240),
        (N.eqb_spec (Byte.to_N b0) 244); try lia; split_tests. }
    cbn [length] in Hs. pose proof (Byte.to_N_bounded b3) as B3.
    assert (D3 : encodable (utf8_decode_replace r3) = true)
      by (apply IH; lia).
    set (d3 := utf8_decode_replace r3) in *. clearbody d3.
    destruct (N.eqb_spec (Byte.to_N b0) 224),
      (N.eqb_spec (Byte.to_N b0) 237), (N.eqb_spec (Byte.to_N b0) 240),
      (N.eqb_spec (Byte.to_N b0) 244); try lia; split_tests.
Qed.

Lemma utf8_decode_replace_encodable (s : bytes) :
  encodable (utf8_decode_replace s) = true.
Proof.
  exact (@utf8_decode_replace_encodable_upto (length s) s (le_n _)).
Qed.

Lemma Returned_eq {A : Type} (x y : A) : Returned x = Returned y -> x = y.
Proof.
  intros E.
  exact (f_equal (fun o => match o with Returned a => a | Raised _ => x end)
                 E).
Qed.

(** X7. The text any operation returns is well-formed Unicode: it holds no
    lone surrogate and no code point above U+10FFFF, whatever bytes the
    server sent, so it can always be encoded again. *)
Theorem returned_text_is_encodable (w : World) (s : State) (result : pystr) :
  (forall (self : ACRCloudConsole.t) (c : console_call),
      outcome w (invoke self c) s = Returned result ->
      encodable result = true)
  /\ (forall (self : ACRCloudStreamMonitor.t) (q : retrieval),
         outcome w (fetch self q) s = Returned result ->
         encodable result = true).
Proof.
  split.
  - intros self c. unfold outcome.
    rewrite invoke_signed_call, run_signed_call. cbv zeta.
    destruct (sign _ _) as [signature|]; cbn [fst]; [|discriminate].
    destruct (text_of _ _) as [e|body_text]; cbn [fst]; [discriminate|].
    destruct (transport w (sent s) _) as [e|response]; [discriminate|].
    intros E. apply Returned_eq in E. subst result.
    apply utf8_decode_replace_encodable.
  - intros self q. unfold outcome. rewrite run_fetch.
    destruct (limit_fits q); cbn [fst]; [|discriminate].
    unfold get_text. cbn [fst].
    destruct (transport w (sent s) _) as [e|response]; [discriminate|].
    intros E. apply Returned_eq in E. subst result.
    apply utf8_decode_replace_encodable.
Qed.

Lemma returned_text_is_encodable_witness :
  outcome (mkWorld (fun _ => lit "1000.0")
                   (fun _ _ => inr (mkResponse 200 [xed; xa0; x80; x41]
                                               None Latin1)) 100)
          (last_results monitor0) state0
  = Returned [0xFFFD; 0xFFFD; 0xFFFD; 0x41]%N
  /\ encodable [0xFFFD; 0xFFFD; 0xFFFD; 0x41]%N = true.
Proof.
  split; [reflexivity|].
  exact (proj2 (returned_text_is_encodable
                  (mkWorld (fun _ => lit "1000.0")
                     (fun _ _ => inr (mkResponse 200 [xed; xa0; x80; x41]
                                                 None Latin1)) 100)
                  state0 [0xFFFD; 0xFFFD; 0xFFFD; 0x41]%N)
               monitor0 LastResults eq_refl).
Defined.

(** X8. When the server's body is the UTF-8 encoding of a text, every
    operation that issues its request returns exactly that text, whatever
    status code and character set the response declares.  A retrieval
    issues its request unless its [limit] has more than 4300 digits, and
    then raises [ValueError]; a console call issues its request unless
    signing raises [UnicodeEncodeError] or [json.dumps] raises, and then
    that exception is its outcome. *)
Theorem returned_text_round_trip (w : World) (s : State)
        (sent_text : pystr) (body : bytes) :
  encode sent_text = Some body ->
  (forall (history : list Request) (r : Request),
      exists response : Response,
        transport w history r = inr response /\ content response = body) ->
  (forall (self : ACRCloudStreamMonitor.t) (q : retrieval),
      outcome w (fetch self q) s =
      if match q with
         | MultipleLastResults limit => (Z.abs limit <? 10 ^ 4300)%Z
         | _ => true
         end
      then Returned sent_text
      else Raised ValueError)
  /\ (forall (self : ACRCloudStreamMonitor.t) (q : retrieval),
         issued w (fetch self q) s <> [] ->
         outcome w (fetch self q) s = Returned sent_text)
  /\ (forall (self : ACRCloudConsole.t) (c : console_call),
         outcome w (invoke self c) s =
         match sign (access_secret self)
                    (canonical (verb_name (table_method c)) (table_path c)
                               (ACRCloudConsole.access_key self)
                               (signature_version self) (clock w (ticks s)))
         with
         | None => Raised UnicodeEncodeError
         | Some _ =>
           match text_of (json_depth w) (payload c) with
           | inl e => Raised e
           | inr _ => Returned sent_text
           end
         end)
  /\ (forall (self : ACRCloudConsole.t) (c : console_call),
         issued w (invoke self c) s <> [] ->
         outcome w (invoke self c) s = Returned sent_text).
Proof.
  intros Hbody Hw.
  assert (Hfetch : forall (self : ACRCloudStreamMonitor.t) (q : retrieval),
             outcome w (fetch self q) s =
             if limit_fits q then Returned sent_text else Raised ValueError).
  { intros self q. unfold outcome. rewrite run_fetch.
    destruct (limit_fits q); [|reflexivity].
    unfold get_text. cbn [fst].
    destruct (Hw (sent s)
                 (mkRequest GET
                    (results_url self ++ query_suffix (extra_params q))
                    None None true)) as [response [-> Hc]].
    rewrite Hc. f_equal. now apply decode_encode. }
  assert (Hinvoke : forall (self : ACRCloudConsole.t) (c : console_call),
             outcome w (invoke self c) s =
             match sign (access_secret self)
                        (canonical (verb_name (table_method c))
                                   (table_path c)
                                   (ACRCloudConsole.access_key self)
                                   (signature_version self)
                                   (clock w (ticks s)))
             with
             | None => Raised UnicodeEncodeError
             | Some _ =>
               match text_of (json_depth w) (payload c) with
               | inl e => Raised e
               | inr _ => Returned sent_text
               end
             end).
  { intros self c. unfold outcome.
    rewrite invoke_signed_call, run_signed_call. cbv zeta.
    destruct (sign _ _) as [signature|]; [|reflexivity].
    destruct (text_of _ _) as [e|body_text]; [reflexivity|]. cbn [fst].
    destruct (Hw (sent s)
                 (request_of self c (clock w (ticks s)) signature body_text))
      as [response [-> Hc]].
    rewrite Hc. f_equal. now apply decode_encode. }
  split; [|split; [|split]].
  - intros self q. rewrite Hfetch. destruct q; reflexivity.
  - intros self q. rewrite Hfetch, fetch_url.
    destruct (limit_fits q); [reflexivity|].
    rewrite issued_raise. intros H. now contradiction H.
  - exact Hinvoke.
  - intros self c. rewrite Hinvoke, invoke_signed_call, issued_signed_call.
    destruct (sign _ _) as [signature|]; [|intros H; now contradiction H].
    destruct (text_of _ _) as [e|body_text]; [|reflexivity].
    intros H. now contradiction H.
Qed.

Lemma returned_text_round_trip_witness :
  outcome (mkWorld (fun _ => lit "1000.0")
                   (fun _ _ => inr (mkResponse 500 [xc3; xa9; xe2; x82; xac]
                                               (Some Latin1) Latin1)) 100)
          (fetch monitor0 (DayResults (lit "20200101"))) state0
  = Returned [233; 8364]%N.
Proof.
  refine (proj1 (@returned_text_round_trip
                   (mkWorld (fun _ => lit "1000.0")
                      (fun _ _ =>
                         inr (mkResponse 500 [xc3; xa9; xe2; x82; xac]
                                         (Some Latin1) Latin1)) 100)
                   state0 [233; 8364]%N [xc3; xa9; xe2; x82; xac]
                   eq_refl _) monitor0 (DayResults (lit "20200101"))).
  intros history r. eexists. split; reflexivity.
Defined.

(** ** The JSON text of the buckets *)

Lemma printable_app (a b : pystr) :
  printable (a ++ b) = printable a && printable b.
Proof. apply forallb_app. Qed.

Lemma hex_digit_printable (k : nat) :
  printable [nth k (lit "0123456789abcdef") 48%N] = true.
Proof.
  destruct (nth_in_or_default k (lit "0123456789abcdef") 48%N) as [H| ->];
    [|reflexivity].
  assert (Hall : printable (lit "0123456789abcdef") = true) by reflexivity.
  unfold printable in *. cbn [forallb]. rewrite andb_true_r.
  rewrite forallb_forall in Hall. now apply Hall.
Qed.

Lemma hex4_printable (n : N) : printable (hex4 n) = true.
Proof.
  unfold hex4. cbv zeta.
  change (printable ([?a; ?b; ?c; ?d]))
    with (printable ([a] ++ [b] ++ [c] ++ [d])).
  now rewrite !printable_app, !hex_digit_printable.
Qed.

Lemma escape_ascii_printable (c : N) : printable (escape_ascii c) = true.
Proof.
  unfold escape_ascii.
  repeat match goal with
         | |- context [if ?b then _ else _] => destruct b eqn:?
         end;
    rewrite ?printable_app, ?hex4_printable; try reflexivity.
  cbn [printable forallb]. now rewrite andb_true_r.
Qed.

Lemma encode_basestring_ascii_printable (s : pystr) :
  printable (encode_basestring_ascii s) = true.
Proof.
  unfold encode_basestring_ascii. rewrite !printable_app.
  replace (printable (flat_map escape_ascii s)) with true; [reflexivity|].
  symmetry. induction s as [|c s IH]; [reflexivity|].
  cbn [flat_map]. now rewrite printable_app, escape_ascii_printable, IH.
Qed.

Lemma uint_printable (d : Decimal.uint) :
  printable (lit (NilEmpty.string_of_uint d)) = true.
Proof. induction d; cbn; try reflexivity; exact IHd. Qed.

Lemma inr_eq {A B : Type} (x y : B) : @inr A B x = inr y -> x = y.
Proof.
  intros E.
  exact (f_equal (fun o => match o with inr b => b | inl _ => x end) E).
Qed.

Lemma decimal_printable (z : Z) : printable (decimal z) = true.
Proof.
  unfold decimal, NilZero.string_of_int, NilZero.string_of_uint.
  destruct (Z.to_int z) as [d|d]; destruct d; try reflexivity;
    try apply (uint_printable (Decimal.D0 _));
    apply uint_printable || (cbn; apply uint_printable).
Qed.

Lemma str_of_int_printable (z : Z) (text : pystr) :
  str_of_int z = inr text -> printable text = true.
Proof.
  unfold str_of_int. destruct (Z.abs z <? 10 ^ int_max_str_digits)%Z;
    [|discriminate].
  intros E. apply inr_eq in E. subst text. apply decimal_printable.
Qed.

Lemma join_printable (sep : pystr) (parts : list pystr) :
  printable sep = true -> Forall (fun p => printable p = true) parts ->
  printable (join sep parts) = true.
Proof.
  intros Hsep H. induction H as [|p parts Hp _ IH]; [reflexivity|].
  destruct parts as [|q parts]; [exact Hp|].
  change (join sep (p :: q :: parts)) with (p ++ sep ++ join sep (q :: parts)).
  now rewrite !printable_app, Hp, Hsep, IH.
Qed.

Lemma collect_Forall {A : Type} (P : A -> Prop) (steps : list (exn + A)) :
  Forall (fun step => forall a, step = inr a -> P a) steps ->
  forall parts : list A, collect steps = inr parts -> Forall P parts.
Proof.
  induction 1 as [|step steps Hstep _ IH]; intros parts E.
  - apply inr_eq in E. subst parts. constructor.
  - cbn [collect] in E. destruct step as [e|a]; [discriminate E|].
    destruct (collect steps) as [e|others]; [discriminate E|].
    apply inr_eq in E. subst parts.
    constructor; [now apply Hstep | now apply IH].
Qed.

Lemma dumps_printable :
  forall (obj : json) (depth : nat) (text : pystr),
    dumps depth obj = inr text -> printable text = true.
Proof.
  fix IH 1. intros [|b|z|s|items|items] depth text E.
  - apply inr_eq in E. now subst text.
  - destruct b; apply inr_eq in E; now subst text.
  - now apply str_of_int_printable with z.
  - apply inr_eq in E. subst text. apply encode_basestring_ascii_printable.
  - cbn [dumps] in E. destruct depth as [|deeper]; [discriminate E|].
    destruct (collect (map (dumps deeper) items)) as [e|parts] eqn:Ec;
      [discriminate E|].
    apply inr_eq in E. subst text.
    rewrite !printable_app, join_printable; [reflexivity..|].
    apply (collect_Forall (fun p => printable p = true)) in Ec; [exact Ec|].
    clear Ec. induction items as [|x items IHitems]; constructor;
      [|exact IHitems].
    intros a Ea. exact (IH x deeper a Ea).
  - cbn [dumps] in E. destruct depth as [|deeper]; [discriminate E|].
    match type of E with
    | match collect ?steps with _ => _ end = _ =>
      destruct (collect steps) as [e|parts] eqn:Ec; [discriminate E|]
    end.
    apply inr_eq in E. subst text.
    rewrite !printable_app, join_printable; [reflexivity..|].
    apply (collect_Forall (fun p => printable p = true)) in Ec; [exact Ec|].
    clear Ec. induction items as [|[k v] items IHitems]; constructor;
      [|exact IHitems].
    intros a Ea. destruct (dumps deeper v) as [e|t] eqn:Ev; [discriminate Ea|].
    apply inr_eq in Ea. subst a.
    now rewrite !printable_app, encode_basestring_ascii_printable,
      (IH v deeper t Ev).
Qed.

(** X9. The [buckets] field that [add_project] and [update_project] send is
    the JSON text that [json.dumps] returned for the list given, the empty
    list included (only an omitted list gives the default), and it is
    printable ASCII whatever the bucket names hold. *)
Theorem buckets_field_is_ascii_json (self : ACRCloudConsole.t)
        (buckets : option (list json)) (w : World) (s : State)
        (r : Request) :
  (exists (project_name : pystr) (type_ : option pystr)
          (audio_type : option Z) (external_id region : option pystr),
      In r (issued w (add_project self project_name type_ buckets audio_type
                                  external_id region) s))
  \/ (exists project_name : pystr,
         In r (issued w (update_project self project_name buckets) s)) ->
  exists text : pystr,
    field (lit "buckets") (data r) = Some (VStr text)
    /\ dumps (json_depth w)
             (JList
                match buckets with
                | Some given => given
                | None =>
                  [JDict [(lit "name", JStr (lit "ACRCloud Music"))]]
                end) = inr text
    /\ printable text = true.
Proof.
  intros [(n & ty & a & e & rg & H)|(n & H)].
  - change (add_project self n ty buckets a e rg)
      with (invoke self (AddProject n ty buckets a e rg)) in H.
    rewrite invoke_signed_call in H.
    apply in_issued_signed_call in H as (signature & text & _ & E & ->).
    exists text. split; [reflexivity|]. split; [exact E|].
    exact (dumps_printable _ _ E).
  - change (update_project self n buckets)
      with (invoke self (UpdateProject n buckets)) in H.
    rewrite invoke_signed_call in H.
    apply in_issued_signed_call in H as (signature & text & _ & E & ->).
    exists text. split; [reflexivity|]. split; [exact E|].
    exact (dumps_printable _ _ E).
Qed.

Lemma buckets_field_is_ascii_json_witness :
  exists r : Request,
    In r (issued world0 (update_project console0 (lit "P") (Some [])) state0)
    /\ field (lit "buckets") (data r) = Some (VStr (lit "[]")).
Proof.
  eexists.
  assert (H : In ?[r] (issued world0
                         (update_project console0 (lit "P") (Some []))
                         state0))
    by (vm_compute; left; reflexivity).
  split; [exact H|].
  destruct (@buckets_field_is_ascii_json console0 (Some []) world0 state0 _
              (or_intror (ex_intro _ (lit "P") H)))
    as (text & Hf & E & _).
  apply inr_eq in E. subst text. exact Hf.
Defined.

(** ** The limit in the query *)

Lemma lit_injective (a b : string) : lit a = lit b -> a = b.
Proof.
  unfold lit. intros E.
  rewrite <- (string_of_list_ascii_of_string a),
    <- (string_of_list_ascii_of_string b).
  f_equal. revert E.
  generalize (list_ascii_of_string a) (list_ascii_of_string b).
  induction l as [|x l IH]; intros [|y l'] E; try discriminate E;
    [reflexivity|].
  cbn [map] in E. f_equal.
  - rewrite <- (ascii_N_embedding x), <- (ascii_N_embedding y).
    f_equal. congruence.
  - apply IH. congruence.
Qed.

Lemma int_of_str_decimal (z : Z) : int_of_str (decimal z) = Some z.
Proof.
  unfold int_of_str, decimal, lit.
  rewrite map_map.
  rewrite (map_ext _ (fun a => a)) by apply ascii_N_embedding.
  rewrite map_id, string_of_list_ascii_of_string.
  rewrite NilZero.isi.
  - cbn [option_map]. f_equal. apply DecimalZ.of_to.
  - destruct z as [|p|p]; [discriminate| |discriminate].
    unfold Z.to_int. intros E.
    apply (DecimalPos.Unsigned.to_uint_nonnil p). congruence.
  - destruct z as [|p|p]; [discriminate|discriminate|].
    unfold Z.to_int. intros E.
    apply (DecimalPos.Unsigned.to_uint_nonnil p). congruence.
Qed.

Lemma issued_multiple_last_results (self : ACRCloudStreamMonitor.t)
      (limit : Z) (w : World) (s : State) :
  issued w (multiple_last_results self limit) s =
  if (Z.abs limit <? 10 ^ 4300)%Z then
    [mkRequest GET
       (lit "https://api.acrcloud.com/v1/monitor-streams/"
          ++ stream_id self ++ lit "/results?access_key="
          ++ ACRCloudStreamMonitor.access_key self
          ++ lit "&limit=" ++ decimal limit)
       None None true]
  else [].
Proof.
  unfold multiple_last_results, str_of_int, int_max_str_digits.
  destruct (Z.abs limit <? 10 ^ 4300)%Z; cbn [lift bind];
    [apply issued_get_text | apply issued_raise].
Qed.

(** X10. The URL that [multiple_last_results] requests ends in the limit
    written in decimal, with its sign: the text after [&limit=] parses back
    to the same integer, so a call that issues its request and a call with
    another limit never issue the same. *)
Theorem limit_is_written_in_decimal (self : ACRCloudStreamMonitor.t)
        (limit1 limit2 : Z) (w : World) (s : State) :
  (forall r : Request,
      In r (issued w (multiple_last_results self limit1) s) ->
      exists text : pystr,
        url r =
        lit "https://api.acrcloud.com/v1/monitor-streams/"
          ++ stream_id self ++ lit "/results?access_key="
          ++ ACRCloudStreamMonitor.access_key self ++ lit "&limit=" ++ text
        /\ int_of_str text = Some limit1)
  /\ (issued w (multiple_last_results self limit1) s <> [] ->
      issued w (multiple_last_results self limit1) s =
      issued w (multiple_last_results self limit2) s ->
      limit1 = limit2).
Proof.
  rewrite !issued_multiple_last_results. split.
  - intros r H. destruct (Z.abs limit1 <? 10 ^ 4300)%Z; [|destruct H].
    destruct H as [<-|[]]. exists (decimal limit1).
    split; [reflexivity | apply int_of_str_decimal].
  - destruct (Z.abs limit1 <? 10 ^ 4300)%Z;
      [|intros H; now contradiction H].
    intros _ E.
    destruct (Z.abs limit2 <? 10 ^ 4300)%Z; [|discriminate E].
    assert (E' : decimal limit1 = decimal limit2).
    { apply (f_equal (fun l => match l with
                               | r :: _ => url r
                               | [] => []
                               end)) in E.
      cbv beta iota in E. cbn [url] in E.
      repeat (apply app_inv_head in E). exact E. }
    apply (f_equal int_of_str) in E'. rewrite !int_of_str_decimal in E'.
    now apply Some_eq in E'.
Qed.

Lemma limit_is_written_in_decimal_witness :
  exists text : pystr,
    map url (issued world0 (multiple_last_results monitor0 (-5)) state0) =
    [lit "https://api.acrcloud.com/v1/monitor-streams/11396/results?access_key=K1&limit="
       ++ text]
    /\ int_of_str text = Some (-5)%Z.
Proof.
  destruct (limit_is_written_in_decimal monitor0 (-5) (-5) world0 state0)
    as [H _].
  destruct (H (mkRequest GET
                 (lit "https://api.acrcloud.com/v1/monitor-streams/11396/results?access_key=K1&limit=-5")
                 None None true)) as (text & Hurl & Hint).
  - left. reflexivity.
  - exists text. split; [|exact Hint].
    cbn [url] in Hurl. change (map url _) with
      [lit "https://api.acrcloud.com/v1/monitor-streams/11396/results?access_key=K1&limit=-5"].
    now rewrite Hurl.
Defined.

(** ** Calls in sequence *)

Lemma run_bind {A B : Type} (w : World) (p : Prog A) (f : A -> Prog B)
      (s : State) :
  run w (bind p f) s =
  match run w p s with
  | (Returned a, s') => run w (f a) s'
  | (Raised e, s') => (Raised e, s')
  end.
Proof.
  revert s.
  induction p as [a|e|k IH|obj k IH|r k IH]; intros s; cbn [bind run].
  - reflexivity.
  - reflexivity.
  - apply IH.
  - destruct (dumps (json_depth w) obj) as [e|t]; [reflexivity | apply IH].
  - destruct (transport w (sent s) r) as [e|response];
      [reflexivity | apply IH].
Qed.

(** X11. Two console calls made one after the other take two successive
    clock readings: when both requests are issued, they are logged in the
    order of the calls and each carries its own reading as [timestamp];
    when the first call raises, the second is not made. *)
Theorem calls_in_sequence (self : ACRCloudConsole.t) (c1 c2 : console_call)
        (w : World) (s : State) :
  (forall e : exn,
      outcome w (invoke self c1) s = Raised e ->
      run w (_ <- invoke self c1 ;; invoke self c2) s =
      (Raised e, snd (run w (invoke self c1) s))
      /\ issued w (_ <- invoke self c1 ;; invoke self c2) s =
         issued w (invoke self c1) s)
  /\ (forall r1 r2 : Request,
         issued w (_ <- invoke self c1 ;; invoke self c2) s = [r1; r2] ->
         issued w (invoke self c1) s = [r1]
         /\ field (lit "timestamp") (headers r1) =
            Some (VStr (clock w (ticks s)))
         /\ field (lit "timestamp") (headers r2) =
            Some (VStr (clock w (S (ticks s))))
         /\ url r2 = lit "https://" ++ host self ++ table_path c2).
Proof.
  split.
  - intros e He. unfold outcome in He.
    unfold issued. rewrite run_bind.
    destruct (run w (invoke self c1) s) as [[a|e'] s1]; cbn [fst] in He;
      [discriminate He|].
    injection He as ->. now split.
  - intros r1 r2 H. unfold issued in H. rewrite run_bind in H.
    rewrite invoke_signed_call in H. rewrite run_signed_call in H.
    cbv zeta in H.
    rewrite (invoke_signed_call self c1), issued_signed_call.
    destruct (sign (access_secret self)
                   (canonical (verb_name (table_method c1)) (table_path c1)
                      (ACRCloudConsole.access_key self)
                      (signature_version self) (clock w (ticks s))))
      as [sig1|].
    + destruct (text_of (json_depth w) (payload c1)) as [e1|txt1].
      { cbn [snd sent] in H.
        rewrite <- (app_nil_r (sent s)) in H at 2.
        rewrite skipn_length_app in H. discriminate H. }
      destruct (transport w (sent s) _) as [e|response].
      * cbn [snd sent] in H. rewrite skipn_length_app in H. discriminate H.
      * rewrite invoke_signed_call, run_signed_call in H. cbv zeta in H.
        cbn [ticks sent] in H.
        destruct (sign (access_secret self) _) as [sig2|].
        -- destruct (text_of (json_depth w) (payload c2)) as [e2|txt2].
           ++ cbn [snd sent] in H. rewrite skipn_length_app in H.
              discriminate H.
           ++ cbn [snd sent] in H. rewrite <- app_assoc in H.
              rewrite skipn_length_app in H. cbn [app] in H.
              injection H as <- <-. repeat split.
        -- cbn [snd sent] in H. rewrite skipn_length_app in H.
           discriminate H.
    + cbn [snd sent] in H.
      rewrite <- (app_nil_r (sent s)) in H at 2.
      rewrite skipn_length_app in H. discriminate H.
Qed.

Lemma calls_in_sequence_witness :
  exists r1 r2 : Request,
    issued (mkWorld (fun n => decimal (Z.of_nat n))
                    (fun _ _ => inr (mkResponse 200 (blit "ok") None UTF8))
                    100)
           (_ <- invoke console0 (GetMonitor (lit "11396")) ;;
            invoke console0 (GetMonitor (lit "11551"))) state0 = [r1; r2]
    /\ field (lit "timestamp") (headers r1) = Some (VStr (lit "0"))
    /\ field (lit "timestamp") (headers r2) = Some (VStr (lit "1")).
Proof.
  eexists. eexists.
  assert (H : issued (mkWorld (fun n => decimal (Z.of_nat n))
                        (fun _ _ => inr (mkResponse 200 (blit "ok") None
                                                    UTF8)) 100)
                (_ <- invoke console0 (GetMonitor (lit "11396")) ;;
                 invoke console0 (GetMonitor (lit "11551"))) state0
              = [?[r1]; ?[r2]])
    by (vm_compute; reflexivity).
  split; [exact H|].
  destruct (calls_in_sequence console0 (GetMonitor (lit "11396"))
              (GetMonitor (lit "11551"))
              (mkWorld (fun n => decimal (Z.of_nat n))
                 (fun _ _ => inr (mkResponse 200 (blit "ok") None UTF8))
                 100)
              state0) as [_ Hseq].
  destruct (Hseq _ _ H) as (_ & H1 & H2 & _).
  split; [exact H1 | exact H2].
Defined.

(** ** When a console call fails before sending *)

Lemma verb_name_encodable (v : verb) : encodable (verb_name v) = true.
Proof. destruct v; reflexivity. Qed.

Lemma collect_raises {A : Type} (P : exn -> Prop) (steps : list (exn + A)) :
  Forall (fun step => forall e, step = inl e -> P e) steps ->
  forall e : exn, collect steps = inl e -> P e.
Proof.
  induction 1 as [|step steps Hstep _ IH]; intros e E; [discriminate E|].
  cbn [collect] in E. destruct step as [e'|a].
  - assert (e' = e) by congruence. subst e'. now apply Hstep.
  - destruct (collect steps) as [e'|others]; [|discriminate E].
    assert (e' = e) by congruence. subst e'. now apply IH.
Qed.

(** [json.dumps] raises nothing but the two exceptions of its model. *)
Lemma dumps_raises :
  forall (obj : json) (depth : nat) (e : exn),
    dumps depth obj = inl e -> e = ValueError \/ e = RecursionError.
Proof.
  fix IH 1. intros [|b|z|s|items|items] depth e E.
  - discriminate E.
  - destruct b; discriminate E.
  - unfold dumps, str_of_int in E.
    destruct (Z.abs z <? 10 ^ int_max_str_digits)%Z; [discriminate E|].
    left. congruence.
  - discriminate E.
  - cbn [dumps] in E. destruct depth as [|deeper]; [right; congruence|].
    destruct (collect (map (dumps deeper) items)) as [e'|parts] eqn:Ec;
      [|discriminate E].
    assert (e' = e) by congruence. subst e'.
    apply (collect_raises (fun e => e = ValueError \/ e = RecursionError))
      in Ec; [exact Ec|].
    clear Ec. induction items as [|x items IHitems]; constructor;
      [|exact IHitems].
    intros e' Ee. exact (IH x deeper e' Ee).
  - cbn [dumps] in E. destruct depth as [|deeper]; [right; congruence|].
    match type of E with
    | match collect ?steps with _ => _ end = _ =>
      destruct (collect steps) as [e'|parts] eqn:Ec; [|discriminate E]
    end.
    assert (e' = e) by congruence. subst e'.
    apply (collect_raises (fun e => e = ValueError \/ e = RecursionError))
      in Ec; [exact Ec|].
    clear Ec. induction items as [|[k v] items IHitems]; constructor;
      [|exact IHitems].
    intros e' Ee. destruct (dumps deeper v) as [e''|t] eqn:Ev;
      [|discriminate Ee].
    assert (e'' = e') by congruence. subst e''.
    exact (IH v deeper e' Ev).
Qed.

Lemma dumps_long_int (depth : nat) :
  dumps (S depth) (JList [JInt (10 ^ 4300)]) = inl ValueError.
Proof. cbn [dumps map collect]. now rewrite str_of_int_long. Qed.

(** X12. A console call raises [UnicodeEncodeError] at signing, before
    [requests] is called, exactly when the path, the access key, the
    signature version or the clock reading has no UTF-8 encoding.
    Otherwise [add_project] and [update_project] raise the [ValueError] or
    the [RecursionError] of [json.dumps], where it raises, and nothing is
    sent; in every other case the call calls [requests] once.  The other
    operations have no [json.dumps] step. *)
Theorem local_failure_iff_unencodable (self : ACRCloudConsole.t)
        (c : console_call) (w : World) (s : State) :
  (encodable (table_path c) && encodable (ACRCloudConsole.access_key self)
     && encodable (signature_version self)
     && encodable (clock w (ticks s)) = true ->
   match text_of (json_depth w) (payload c) with
   | inr _ =>
     exists r : Request,
       issued w (invoke self c) s = [r]
       /\ snd (run w (invoke self c) s)
          = mkState (S (ticks s)) (sent s ++ [r])
   | inl e =>
     run w (invoke self c) s =
     (Raised e, mkState (S (ticks s)) (sent s))
     /\ (e = ValueError \/ e = RecursionError)
   end)
  /\ (encodable (table_path c) && encodable (ACRCloudConsole.access_key self)
        && encodable (signature_version self)
        && encodable (clock w (ticks s)) = false ->
      run w (invoke self c) s =
      (Raised UnicodeEncodeError, mkState (S (ticks s)) (sent s)))
  /\ match c with
     | AddProject _ _ buckets _ _ _ | UpdateProject _ buckets =>
       text_of (json_depth w) (payload c) =
       dumps (json_depth w)
             (JList
                match buckets with
                | Some given => given
                | None =>
                  [JDict [(lit "name", JStr (lit "ACRCloud Music"))]]
                end)
     | _ => text_of (json_depth w) (payload c) = inr []
     end.
Proof.
  assert (E : encodable
                (canonical (verb_name (table_method c)) (table_path c)
                   (ACRCloudConsole.access_key self) (signature_version self)
                   (clock w (ticks s)))
              = encodable (table_path c)
                  && encodable (ACRCloudConsole.access_key self)
                  && encodable (signature_version self)
                  && encodable (clock w (ticks s))).
  { unfold canonical. rewrite !encodable_app, verb_name_encodable.
    change (encodable nl) with true. cbn [andb]. now rewrite !andb_assoc. }
  rewrite <- E. split; [|split].
  - intros H.
    apply (sign_defined (access_secret self)) in H as [signature Hsig].
    rewrite invoke_signed_call, issued_signed_call, run_signed_call.
    cbv zeta. rewrite Hsig.
    destruct (text_of (json_depth w) (payload c)) as [e|body_text] eqn:Et.
    + split; [reflexivity|].
      destruct (payload c) as [obj|]; [|discriminate Et].
      exact (dumps_raises _ _ Et).
    + exists (request_of self c (clock w (ticks s)) signature body_text).
      split; reflexivity.
  - intros H. apply (sign_undefined (access_secret self)) in H.
    rewrite invoke_signed_call, run_signed_call. cbv zeta. now rewrite H.
  - destruct c; try reflexivity; destruct buckets; reflexivity.
Qed.

Lemma local_failure_iff_unencodable_witness :
  (exists r : Request,
      issued world0
        (add_project console0 [0xD800%N] None None None None None) state0
      = [r])
  /\ outcome world0 (get_project console0 [0xD800%N]) state0
     = Raised UnicodeEncodeError.
Proof.
  split.
  - destruct (proj1 (local_failure_iff_unencodable console0
                       (AddProject [0xD800%N] None None None None None)
                       world0 state0) eq_refl) as [r [H _]].
    exists r. exact H.
  - unfold outcome.
    change (get_project console0 [0xD800%N])
      with (invoke console0 (GetProject [0xD800%N])).
    rewrite (proj1 (proj2 (local_failure_iff_unencodable console0
                             (GetProject [0xD800%N]) world0 state0))
               eq_refl).
    reflexivity.
Defined.

(** A bucket list that holds an integer of 4301 digits: [json.dumps] raises
    and [update_project] sends nothing, whatever the console, the clock and
    the state are. *)
Example update_project_long_int_not_sent (self : ACRCloudConsole.t)
        (project_name : pystr) (w : World) (s : State) :
  issued w (update_project self project_name (Some [JInt (10 ^ 4300)])) s
  = [].
Proof.
  change (update_project self project_name (Some [JInt (10 ^ 4300)]))
    with (invoke self (UpdateProject project_name
                                     (Some [JInt (10 ^ 4300)]))).
  rewrite invoke_signed_call, issued_signed_call.
  destruct (sign _ _) as [signature|]; [|reflexivity].
  cbn [payload bucket_list text_of].
  destruct (json_depth w) as [|depth]; [reflexivity|].
  now rewrite dumps_long_int.
Qed.

(** ** What the secret touches *)

(** X13. The access secret reaches a request through the [signature] header
    only: two consoles that differ in their secret alone issue, for the same
    call at the same clock reading, requests with the same method, URL,
    body and other headers. *)
Theorem secret_only_in_signature (key hostname version : pystr)
        (secret1 secret2 : bytes) (c : console_call) (w : World) (s : State)
        (r1 r2 : Request) :
  In r1 (issued w (invoke (ACRCloudConsole.mk key secret1 hostname version) c)
                s) ->
  In r2 (issued w (invoke (ACRCloudConsole.mk key secret2 hostname version) c)
                s) ->
  method r1 = method r2 /\ url r1 = url r2 /\ data r1 = data r2
  /\ verify r1 = verify r2
  /\ exists signature1 signature2 : bytes,
      headers r1 =
      Some [(lit "access-key", VStr key);
            (lit "signature-version", VStr version);
            (lit "signature", VBytes signature1);
            (lit "timestamp", VStr (clock w (ticks s)))]
      /\ headers r2 =
         Some [(lit "access-key", VStr key);
               (lit "signature-version", VStr version);
               (lit "signature", VBytes signature2);
               (lit "timestamp", VStr (clock w (ticks s)))].
Proof.
  intros H1 H2. rewrite invoke_signed_call in H1, H2.
  apply in_issued_signed_call in H1 as (sig1 & txt1 & _ & E1 & ->).
  apply in_issued_signed_call in H2 as (sig2 & txt2 & _ & E2 & ->).
  rewrite E2 in E1. apply inr_eq in E1. subst txt2.
  repeat (split; [reflexivity|]).
  exists sig1, sig2. split; reflexivity.
Qed.

Lemma secret_only_in_signature_witness :
  exists r1 r2 : Request,
    In r1 (issued world0
             (invoke (ACRCloudConsole.mk (lit "K1") (blit "abc")
                                         (lit "api.acrcloud.com") (lit "1"))
                     (DeleteProject (lit "P"))) state0)
    /\ In r2 (issued world0
                (invoke (ACRCloudConsole.mk (lit "K1") (blit "xyz")
                                            (lit "api.acrcloud.com")
                                            (lit "1"))
                        (DeleteProject (lit "P"))) state0)
    /\ url r1 = url r2 /\ data r1 = data r2 /\ headers r1 <> headers r2.
Proof.
  eexists. eexists.
  assert (H1 : In ?[r1]
                 (issued world0
                    (invoke (ACRCloudConsole.mk (lit "K1") (blit "abc")
                                                (lit "api.acrcloud.com")
                                                (lit "1"))
                            (DeleteProject (lit "P"))) state0))
    by (vm_compute; left; reflexivity).
  assert (H2 : In ?[r2]
                 (issued world0
                    (invoke (ACRCloudConsole.mk (lit "K1") (blit "xyz")
                                                (lit "api.acrcloud.com")
                                                (lit "1"))
                            (DeleteProject (lit "P"))) state0))
    by (vm_compute; left; reflexivity).
  destruct (@secret_only_in_signature (lit "K1") (lit "api.acrcloud.com")
              (lit "1") (blit "abc") (blit "xyz") (DeleteProject (lit "P"))
              world0 state0 _ _ H1 H2) as (_ & Hu & Hd & _).
  split; [exact H1|]. split; [exact H2|].
  split; [exact Hu|]. split; [exact Hd|].
  cbn [headers]. discriminate.
Defined.
